(** * entirius-pylib-template: the template module, embedded and verified

    A shallow embedding of [src/entirius_pylib_template/template.py]:
    the [TemplateConfig] dataclass, [hello_entirius], [validate_input] and
    [process_data], together with the parts of the Python runtime they call
    ([str.strip], [len], [isinstance], [type(x).__name__], [dict] item
    assignment and [re.match] on patterns of the shape [^[...]+$]).

    Python text is a sequence of Unicode code points, so a [str] is a list
    of code points ([N]); integers are unbounded ([Z]); exceptions are an
    explicit error result. *)

From Stdlib Require Import List ZArith NArith Bool String Ascii Lia.
Import ListNotations.
Local Open Scope Z_scope.

Set Implicit Arguments.
Set Warnings "-register-all".

(** ** Python values *)

Definition char := N.
Definition str := list char.

(** A Rocq string literal read as Python text, one code point per byte. *)
Definition lit (s : string) : str := map N_of_ascii (list_ascii_of_string s).

Fixpoint str_eqb (a b : str) : bool :=
  match a, b with
  | [], [] => true
  | x :: a', y :: b' => N.eqb x y && str_eqb a' b'
  | _, _ => false
  end.

(** The objects the functions are called on.  A [dict] is the list of its
    items in insertion order. *)
Inductive value : Type :=
| VNone
| VBool (b : bool)
| VInt (z : Z)
| VStr (s : str)
| VList (l : list value)
| VTuple (l : list value)
| VDict (d : list (value * value)).

(** [type(v).__name__] *)
Definition type_name (v : value) : string :=
  match v with
  | VNone => "NoneType"
  | VBool _ => "bool"
  | VInt _ => "int"
  | VStr _ => "str"
  | VList _ => "list"
  | VTuple _ => "tuple"
  | VDict _ => "dict"
  end.

(** [str(type(v))], as an f-string interpolates it. *)
Definition type_repr (v : value) : string :=
  ("<class '" ++ type_name v ++ "'>")%string.

(** [isinstance(v, str)] *)
Definition is_str (v : value) : bool :=
  match v with VStr _ => true | _ => false end.

(** ** Exceptions *)

(** [TemplateError] carries its message.  [PatternError] stands for what
    [re.match] does on a pattern that is not of the shape [^[...]+$]: it
    raises [re.error] on a malformed set, and patterns of any other shape
    are outside this development. *)
Inductive exn : Type :=
| TemplateError (msg : string)
| PatternError.

Inductive result (A : Type) : Type :=
| Ok (a : A)
| Raise (e : exn).
Arguments Ok {A} a.
Arguments Raise {A} e.

Definition bind {A B} (m : result A) (k : A -> result B) : result B :=
  match m with
  | Ok a => k a
  | Raise e => Raise e
  end.

Notation "x <- m ;; k" := (bind m (fun x => k))
  (at level 61, m at next level, right associativity).

(** ** [str.strip] and [len] *)

(** [str.isspace] on one code point. *)
Definition isspace (c : char) : bool :=
  existsb (N.eqb c)
    [0x09; 0x0a; 0x0b; 0x0c; 0x0d; 0x1c; 0x1d; 0x1e; 0x1f; 0x20; 0x85; 0xa0;
     0x1680; 0x2000; 0x2001; 0x2002; 0x2003; 0x2004; 0x2005; 0x2006; 0x2007;
     0x2008; 0x2009; 0x200a; 0x2028; 0x2029; 0x202f; 0x205f; 0x3000]%N.

Fixpoint lstrip (s : str) : str :=
  match s with
  | [] => []
  | c :: rest => if isspace c then lstrip rest else s
  end.

Definition rstrip (s : str) : str := rev (lstrip (rev s)).

Definition strip (s : str) : str := rstrip (lstrip s).

Definition len {A} (l : list A) : Z := Z.of_nat (List.length l).

(** ** [re.match] on [^[...]+$] *)

Module Re.

(** The members of a bracket set, as [sre_parse] collects them. *)
Inductive set_item : Type :=
| LITERAL (c : char)
| RANGE (lo hi : char).

Definition is_char (a : ascii) (c : char) : bool := N.eqb c (N_of_ascii a).

(** The loop of [sre_parse] over the inside of a bracket set: [set] holds
    the members read so far, the result is the set and the source that
    follows the closing bracket.  A closing bracket read while the set is
    still empty is a literal; [a-b] with [b < a], a set left open and a
    dash followed by the end of the source are errors.  Escapes are not
    covered. *)
Fixpoint parse_set (set : list set_item) (src : str)
  : option (list set_item * str) :=
  match src with
  | [] => None
  | this :: src1 =>
      if is_char "]" this && negb (Nat.eqb (List.length set) 0)
      then Some (set, src1)
      else if is_char "\" this then None
      else
        match src1 with
        | [] => None
        | dash :: src2 =>
            if is_char "-" dash then
              match src2 with
              | [] => None
              | that :: src3 =>
                  if is_char "]" that
                  then Some (set ++ [LITERAL this; LITERAL (N_of_ascii "-")],
                             src3)
                  else if is_char "\" that then None
                  else if (that <? this)%N then None
                  else parse_set (set ++ [RANGE this that]) src3
              end
            else parse_set (set ++ [LITERAL this]) src1
        end
  end.

(** A compiled pattern [^[...]+$]: the negation flag and the members. *)
Record charset : Type := { negate : bool; members : list set_item }.

Definition parse (pattern : str) : option charset :=
  match pattern with
  | c0 :: c1 :: src =>
      if is_char "^" c0 && is_char "[" c1 then
        let '(neg, src') :=
          match src with
          | c2 :: src2 => if is_char "^" c2 then (true, src2) else (false, src)
          | [] => (false, src)
          end in
        match parse_set [] src' with
        | Some (set, [p; d]) =>
            if is_char "+" p && is_char "$" d
            then Some {| negate := neg; members := set |}
            else None
        | _ => None
        end
      else None
  | _ => None
  end.

Definition item_matches (c : char) (it : set_item) : bool :=
  match it with
  | LITERAL l => N.eqb c l
  | RANGE lo hi => (lo <=? c)%N && (c <=? hi)%N
  end.

(** One character against the set. *)
Definition in_class (cs : charset) (c : char) : bool :=
  xorb (negate cs) (existsb (item_matches c) (members cs)).

(** [$] without [re.MULTILINE]: at the end of the string, or just before
    a newline that is the last character. *)
Definition at_end (s : str) : bool :=
  match s with
  | [] => true
  | [c] => N.eqb c 0x0a
  | _ => false
  end.

(** [[...]+$] from the current position: one character of the set, then
    greedily more of them, falling back to [$] where the repetition
    cannot go on to a match. *)
Fixpoint match_plus_end (cs : charset) (s : str) : bool :=
  match s with
  | [] => false
  | c :: rest => in_class cs c && (match_plus_end cs rest || at_end rest)
  end.

(** [re.match(pattern, s)], as the truth value of what it returns, for a
    pattern [^[...]+$] whose set has no escapes.  On any other pattern the
    result is [PatternError]: this covers the patterns on which [re.match]
    raises [re.error], and also those it does handle (a set with escapes
    such as [[\w]], a pattern that is not one set), which are left out
    here; no statement below draws on that case. *)
Definition re_match (pattern s : str) : result bool :=
  match parse pattern with
  | Some cs => Ok (match_plus_end cs s)
  | None => Raise PatternError
  end.

End Re.

(** ** [TemplateConfig] *)

Record TemplateConfig : Type := {
  max_length : Z;
  min_length : Z;
  allowed_chars : str;
  strip_whitespace : bool
}.

Definition post_init (self : TemplateConfig) : result unit :=
  if max_length self <? min_length self
  then Raise (TemplateError
                "max_length must be greater than or equal to min_length")
  else Ok tt.

Definition from_option {A} (d : A) (o : option A) : A :=
  match o with Some a => a | None => d end.

(** The generated [__init__]: an argument left out takes its default, then
    [__post_init__] runs. *)
Definition new_TemplateConfig (max_length min_length : option Z)
    (allowed_chars : option str) (strip_whitespace : option bool)
  : result TemplateConfig :=
  let self := {| max_length := from_option 100 max_length;
                 min_length := from_option 1 min_length;
                 allowed_chars := from_option (lit "[a-zA-Z0-9_-]") allowed_chars;
                 strip_whitespace := from_option true strip_whitespace |} in
  _ <- post_init self ;;
  Ok self.

(** [TemplateConfig()] *)
Definition default_TemplateConfig : result TemplateConfig :=
  new_TemplateConfig None None None None.

(** ** [hello_entirius] *)

(** The parameter defaults to [None], so a call without argument and a call
    on [None] are the same call. *)
Definition hello_entirius (name : value) : result str :=
  let name := match name with VNone => VStr (lit "World") | _ => name end in
  match name with
  | VStr n => Ok (lit "Hello, " ++ n ++ lit "! Welcome to Entirius.")%list
  | _ => Raise (TemplateError "Name must be a string")
  end.

(** ** [validate_input] *)

Definition validate_input (value : value) (config : option TemplateConfig)
  : result bool :=
  match value with
  | VStr value =>
      config <- match config with
                | None => default_TemplateConfig
                | Some c => Ok c
                end ;;
      let value := if strip_whitespace config then strip value else value in
      if (len value <? min_length config) || (len value >? max_length config)
      then Ok false
      else
        m <- Re.re_match (lit "^" ++ allowed_chars config ++ lit "+$")%list
                         value ;;
        if negb m then Ok false else Ok true
  | _ => Raise (TemplateError "Value must be a string")
  end.

(** ** [dict] *)

(** A [dict] keeps its entries in insertion order. *)
Definition dict (K V : Type) : Type := list (K * V).

(** [d[k] = v]: an entry whose key is already there keeps its place and
    takes the new value, a new key goes to the end. *)
Fixpoint dict_set {K V} (eqb : K -> K -> bool) (d : dict K V) (k : K) (v : V)
  : dict K V :=
  match d with
  | [] => [(k, v)]
  | (k', v') :: rest =>
      if eqb k' k then (k', v) :: rest
      else (k', v') :: dict_set eqb rest k v
  end.

(** [d.get(k)] *)
Fixpoint dict_get {K V} (eqb : K -> K -> bool) (d : dict K V) (k : K)
  : option V :=
  match d with
  | [] => None
  | (k', v') :: rest => if eqb k' k then Some v' else dict_get eqb rest k
  end.

Definition dict_keys {K V} (d : dict K V) : list K := map fst d.

(** ** [process_data] *)

Record config_used_t : Type := {
  used_max_length : Z;
  used_min_length : Z
}.

(** One entry of ["processed_data"] for a list. *)
Record item_entry : Type := {
  item_value : str;
  item_valid : bool;
  item_length : Z
}.

(** One entry of ["processed_data"] for a dict. *)
Record key_entry : Type := {
  original_value : value;
  key_valid : bool;
  value_type : string
}.

(** The keys the result holds besides the common ones, by branch. *)
Inductive branch_fields : Type :=
| OfStr (processed_data : str) (valid : bool) (length : Z)
| OfList (processed_data : list item_entry) (total_items valid_items : Z)
         (valid : bool)
| OfDict (processed_data : dict str key_entry) (total_keys valid_keys : Z)
         (valid : bool).

Record process_result : Type := {
  input_type : string;
  processed_at : string;
  config_used : config_used_t;
  fields : branch_fields
}.

(** [item.strip() if config.strip_whitespace else item] *)
Definition stripped (config : TemplateConfig) (s : str) : str :=
  if strip_whitespace config then strip s else s.

(** The loop over a list, with [processed_items] and [valid_items] as they
    stand before the items of [data] that are left. *)
Fixpoint process_items (config : TemplateConfig) (data : list value)
    (processed_items : list item_entry) (valid_items : Z)
  : result (list item_entry * Z) :=
  match data with
  | [] => Ok (processed_items, valid_items)
  | item :: rest =>
      match item with
      | VStr s =>
          let processed_item := stripped config s in
          is_valid <- validate_input item (Some config) ;;
          process_items config rest
            (processed_items ++ [{| item_value := processed_item;
                                    item_valid := is_valid;
                                    item_length := len processed_item |}])
            (if is_valid then valid_items + 1 else valid_items)
      | _ => Raise (TemplateError
                      ("List items must be strings, got " ++ type_repr item))
      end
  end.

(** The loop over [data.items()], with [processed_dict] and [valid_keys] as
    they stand before the entries that are left. *)
Fixpoint process_entries (config : TemplateConfig) (data : list (value * value))
    (processed_dict : dict str key_entry) (valid_keys : Z)
  : result (dict str key_entry * Z) :=
  match data with
  | [] => Ok (processed_dict, valid_keys)
  | (key, value) :: rest =>
      match key with
      | VStr k =>
          key_valid <- validate_input key (Some config) ;;
          let processed_key := stripped config k in
          process_entries config rest
            (dict_set str_eqb processed_dict processed_key
               {| original_value := value;
                  key_valid := key_valid;
                  value_type := type_name value |})
            (if key_valid then valid_keys + 1 else valid_keys)
      | _ => Raise (TemplateError "Dictionary keys must be strings")
      end
  end.

Definition process_data (data : value) (config : option TemplateConfig)
  : result process_result :=
  config <- match config with
            | None => default_TemplateConfig
            | Some c => Ok c
            end ;;
  let result (f : branch_fields) :=
    {| input_type := type_name data;
       processed_at := "timestamp_placeholder";
       config_used := {| used_max_length := max_length config;
                         used_min_length := min_length config |};
       fields := f |} in
  match data with
  | VStr s =>
      let processed_data := stripped config s in
      valid <- validate_input data (Some config) ;;
      Ok (result (OfStr processed_data valid (len processed_data)))
  | VList l =>
      r <- process_items config l [] 0 ;;
      let '(processed_items, valid_items) := r in
      Ok (result (OfList processed_items (len l) valid_items
                         (valid_items =? len l)))
  | VDict d =>
      r <- process_entries config d [] 0 ;;
      let '(processed_dict, valid_keys) := r in
      Ok (result (OfDict processed_dict (len d) valid_keys
                         (valid_keys =? len d)))
  | _ => Raise (TemplateError ("Unsupported data type: " ++ type_repr data))
  end.

(** ** Vocabulary of the statements *)

(** The specification's names for the errors: in the source they are all
    [TemplateError], told apart by their message. *)
Definition ConfigError : exn :=
  TemplateError "max_length must be greater than or equal to min_length".
Definition InputTypeError : exn := TemplateError "Name must be a string".
Definition ElementTypeError (item : value) : exn :=
  TemplateError ("List items must be strings, got " ++ type_repr item).
Definition KeyTypeError : exn := TemplateError "Dictionary keys must be strings".
Definition UnsupportedTypeError (data : value) : exn :=
  TemplateError ("Unsupported data type: " ++ type_repr data).

(** The fields of [TemplateConfig()]. *)
Definition default_config : TemplateConfig :=
  {| max_length := 100;
     min_length := 1;
     allowed_chars := lit "[a-zA-Z0-9_-]";
     strip_whitespace := true |}.

(** The configuration a call works with. *)
Definition config_or_default (config : option TemplateConfig) : TemplateConfig :=
  from_option default_config config.

(** The pattern [validate_input] hands to [re.match]. *)
Definition pattern_of (config : TemplateConfig) : str :=
  (lit "^" ++ allowed_chars config ++ lit "+$")%list.

(** [allowed_chars] is a bracket set, and [cs] is what it denotes. *)
Definition is_class (config : TemplateConfig) (cs : Re.charset) : Prop :=
  Re.parse (pattern_of config) = Some cs.

Definition in_bounds (config : TemplateConfig) (v : str) : bool :=
  (min_length config <=? len v) && (len v <=? max_length config).

(** [validate_input] accepts the text [s]. *)
Definition accepts (config : TemplateConfig) (s : str) : bool :=
  match validate_input (VStr s) (Some config) with
  | Ok b => b
  | Raise _ => false
  end.

(** Validation as the specification words it: the stripped value has a
    length within the bounds, is not empty, and all its characters are in
    the class. *)
Definition validate_spec (config : TemplateConfig) (cs : Re.charset) (s : str)
  : bool :=
  let v := stripped config s in
  in_bounds config v && forallb (Re.in_class cs) v && negb (len v =? 0).

Definition count_accepted (config : TemplateConfig) (l : list str) : Z :=
  len (filter (accepts config) l).

Definition item_entry_of (config : TemplateConfig) (s : str) : item_entry :=
  {| item_value := stripped config s;
     item_valid := accepts config s;
     item_length := len (stripped config s) |}.

Definition key_entry_of (config : TemplateConfig) (kv : str * value)
  : key_entry :=
  {| original_value := snd kv;
     key_valid := accepts config (fst kv);
     value_type := type_name (snd kv) |}.

(** A list of text and a dict with text keys, as values. *)
Definition text_list (l : list str) : value := VList (map VStr l).
Definition text_dict (d : list (str * value)) : value :=
  VDict (map (fun kv => (VStr (fst kv), snd kv)) d).

(** The dict the loop over the entries builds from [acc]. *)
Definition collect (config : TemplateConfig) (d : list (str * value))
    (acc : dict str key_entry) : dict str key_entry :=
  fold_left (fun acc kv =>
               dict_set str_eqb acc (stripped config (fst kv))
                        (key_entry_of config kv)) d acc.

(** The last entry of [d] whose key strips to [p]. *)
Definition last_with (config : TemplateConfig) (p : str)
    (d : list (str * value)) : option (str * value) :=
  find (fun kv => str_eqb (stripped config (fst kv)) p) (rev d).

Definition header (data : value) (config : TemplateConfig)
    (f : branch_fields) : process_result :=
  {| input_type := type_name data;
     processed_at := "timestamp_placeholder";
     config_used := {| used_max_length := max_length config;
                       used_min_length := min_length config |};
     fields := f |}.

(** The kinds [process_data] has a branch for. *)
Definition supported (data : value) : bool :=
  match data with
  | VStr _ | VList _ | VDict _ => true
  | _ => false
  end.

(** The inputs of the examples. *)
Definition nostrip_config : TemplateConfig :=
  {| max_length := 100;
     min_length := 1;
     allowed_chars := lit "[a-zA-Z0-9_-]";
     strip_whitespace := false |}.

Definition default_class : Re.charset :=
  {| Re.negate := false;
     Re.members := [Re.RANGE 97 122; Re.RANGE 65 90; Re.RANGE 48 57;
                    Re.LITERAL 95; Re.LITERAL 45]%N |}.

Definition newline : char := 0x0a%N.

(** The entry the loop over a dict writes for one item of the input. *)
Definition entry_of_item (config : TemplateConfig) (kv : str * value)
  : str * key_entry :=
  (stripped config (fst kv), key_entry_of config kv).

(** The characters of the default [allowed_chars]: ASCII letters and
    digits, the underscore and the dash. *)
Definition default_char (c : char) : bool :=
  ((0x61 <=? c) && (c <=? 0x7a) || (0x41 <=? c) && (c <=? 0x5a)
   || (0x30 <=? c) && (c <=? 0x39) || (c =? 0x5f) || (c =? 0x2d))%N.

(** The entries of a list result that are flagged valid. *)
Definition flagged_valid (items : list item_entry) : list item_entry :=
  filter item_valid items.

(** What [str.strip] is to return of [s], said without its algorithm: the
    text [v] that is left of [s] between a run of whitespace before it and
    one after it, and that neither starts nor ends with whitespace. *)
Definition strips_to (s v : str) : Prop :=
  (exists pre post,
      s = (pre ++ v ++ post)%list /\
      forallb isspace pre = true /\ forallb isspace post = true) /\
  (forall c rest, v = c :: rest -> isspace c = false) /\
  (forall rest c, v = (rest ++ [c])%list -> isspace c = false).

(** * Facts *)

(** ** Text *)

Lemma str_eqb_eq (a b : str) : str_eqb a b = true <-> a = b.
Proof.
  revert b; induction a as [|x a IH]; intros [|y b]; simpl;
    try (split; [discriminate | congruence]); try tauto.
  rewrite andb_true_iff, N.eqb_eq, IH.
  split; [intros [-> ->]; reflexivity | intros E; inversion E; auto].
Qed.

Lemma str_eqb_refl (a : str) : str_eqb a a = true.
Proof. apply str_eqb_eq; reflexivity. Qed.

Lemma lstrip_head (s : str) (c : char) (r : str) :
  lstrip s = c :: r -> isspace c = false.
Proof.
  induction s as [|x s IH]; simpl; [discriminate|].
  destruct (isspace x) eqn:E; [exact IH|].
  intros H; inversion H; subst; exact E.
Qed.

(** What [strip] returns does not end with whitespace. *)
Lemma strip_last (s r : str) (c : char) :
  strip s = (r ++ [c])%list -> isspace c = false.
Proof.
  unfold strip, rstrip; intros H.
  apply (f_equal (@rev char)) in H.
  rewrite rev_involutive, rev_unit in H.
  exact (lstrip_head _ H).
Qed.

(** ** Stripping *)

Lemma lstrip_split (s : str) :
  exists pre, s = (pre ++ lstrip s)%list /\ forallb isspace pre = true.
Proof.
  induction s as [|c s (pre & E & Hpre)]; [exists []; auto|].
  simpl; destruct (isspace c) eqn:Hc; [|exists []; auto].
  exists (c :: pre); simpl; rewrite Hc, Hpre; split; [congruence|reflexivity].
Qed.

Lemma lstrip_spaces (pre x : str) :
  forallb isspace pre = true -> lstrip (pre ++ x) = lstrip x.
Proof.
  induction pre as [|c pre IH]; simpl; [reflexivity|].
  intros H; apply andb_true_iff in H; destruct H as [-> H]; auto.
Qed.

Lemma lstrip_app (x y : str) :
  lstrip x <> [] -> lstrip (x ++ y) = (lstrip x ++ y)%list.
Proof.
  induction x as [|c x IH]; simpl; [congruence|].
  destruct (isspace c); auto.
Qed.

Lemma lstrip_nil (x : str) : lstrip x = [] -> forallb isspace x = true.
Proof.
  induction x as [|c x IH]; simpl; [reflexivity|].
  destruct (isspace c); simpl; [exact IH | discriminate].
Qed.

Lemma lstrip_all_spaces (x : str) : forallb isspace x = true -> lstrip x = [].
Proof.
  intros H; rewrite <- (app_nil_r x); apply (@lstrip_spaces x [] H).
Qed.

Lemma forallb_rev {A} (f : A -> bool) (l : list A) :
  forallb f (rev l) = forallb f l.
Proof.
  induction l as [|a l IH]; [reflexivity|].
  simpl; rewrite forallb_app, IH; simpl; rewrite andb_true_r, andb_comm.
  reflexivity.
Qed.

Lemma rstrip_split (s : str) :
  exists post, s = (rstrip s ++ post)%list /\ forallb isspace post = true.
Proof.
  destruct (lstrip_split (rev s)) as (pre & E & Hpre).
  exists (rev pre); split; [|rewrite forallb_rev; exact Hpre].
  unfold rstrip; rewrite <- rev_app_distr, <- E, rev_involutive; reflexivity.
Qed.

Lemma rstrip_spaces (x post : str) :
  forallb isspace post = true -> rstrip (x ++ post) = rstrip x.
Proof.
  intros H; unfold rstrip; rewrite rev_app_distr, lstrip_spaces;
    [reflexivity | rewrite forallb_rev; exact H].
Qed.

(** Whitespace around a text does not change what [strip] returns. *)
Lemma strip_padding (pre s post : str) :
  forallb isspace pre = true ->
  forallb isspace post = true ->
  strip (pre ++ s ++ post) = strip s.
Proof.
  intros Hpre Hpost; unfold strip; rewrite (@lstrip_spaces pre _ Hpre).
  destruct (lstrip s) as [|c r] eqn:E.
  - rewrite lstrip_spaces, (@lstrip_all_spaces post Hpost);
      [reflexivity | apply lstrip_nil, E].
  - rewrite lstrip_app, E, rstrip_spaces; [reflexivity | exact Hpost|].
    rewrite E; discriminate.
Qed.

(** A text is what [strip] returns of it, between two runs of whitespace. *)
Lemma strip_split (s : str) :
  exists pre post,
    s = (pre ++ strip s ++ post)%list /\
    forallb isspace pre = true /\ forallb isspace post = true.
Proof.
  destruct (lstrip_split s) as (pre & E & Hpre).
  destruct (rstrip_split (lstrip s)) as (post & E' & Hpost).
  exists pre, post; unfold strip; rewrite <- E', <- E; auto.
Qed.

Lemma strip_idempotent (s : str) : strip (strip s) = strip s.
Proof.
  destruct (strip_split s) as (pre & post & E & Hpre & Hpost).
  rewrite E at 2; symmetry; apply strip_padding; assumption.
Qed.

Lemma strip_first (s r : str) (c : char) :
  strip s = c :: r -> isspace c = false.
Proof.
  unfold strip; intros H.
  destruct (rstrip_split (lstrip s)) as (post & E & _).
  rewrite H in E; simpl in E; eapply lstrip_head; exact E.
Qed.

(** ** The matcher *)

Lemma at_end_inv (s : str) :
  Re.at_end s = true -> s = [] \/ s = [newline].
Proof.
  destruct s as [|c [|d s]]; simpl; auto; try discriminate.
  intros H; apply N.eqb_eq in H; subst; auto.
Qed.

(** On a string that does not end with a newline, [[...]+$] holds exactly
    of the non-empty strings whose characters are all in the set. *)
Lemma match_plus_end_all (cs : Re.charset) (s : str) :
  (forall r, s <> (r ++ [newline])%list) ->
  Re.match_plus_end cs s = forallb (Re.in_class cs) s && negb (len s =? 0).
Proof.
  induction s as [|c s IH]; intros Hnl; [reflexivity|].
  assert (Hs : forall r, s <> (r ++ [newline])%list).
  { intros r E; apply (Hnl (c :: r)); simpl; congruence. }
  cbn [Re.match_plus_end forallb]; rewrite (IH Hs).
  replace (negb (len (c :: s) =? 0)) with true
    by (unfold len; simpl List.length; symmetry; apply negb_true_iff, Z.eqb_neq; lia).
  destruct s as [|d s].
  - simpl; rewrite !andb_true_r; reflexivity.
  - assert (Hend : Re.at_end (d :: s) = false).
    { destruct (Re.at_end (d :: s)) eqn:E; [|reflexivity].
      destruct (at_end_inv _ E) as [E'|E']; [discriminate|].
      exfalso; apply (Hnl [c]); simpl; congruence. }
    rewrite Hend, orb_false_r.
    replace (negb (len (d :: s) =? 0)) with true
      by (unfold len; simpl List.length; symmetry; apply negb_true_iff, Z.eqb_neq; lia).
    rewrite !andb_true_r; reflexivity.
Qed.

(** A newline after a non-empty string of characters of the set is let
    through. *)
Lemma match_plus_end_newline (cs : Re.charset) (s : str) :
  forallb (Re.in_class cs) s = true ->
  s <> [] ->
  Re.match_plus_end cs (s ++ [newline]) = true.
Proof.
  induction s as [|c s IH]; [contradiction|].
  cbn [forallb]; intros Hall _.
  apply andb_true_iff in Hall; destruct Hall as [Hc Hs].
  cbn [app Re.match_plus_end]; rewrite Hc; cbn [andb].
  destruct s as [|d s]; [apply orb_true_r|].
  rewrite IH; [reflexivity | exact Hs | discriminate].
Qed.

(** ** [validate_input] *)

Lemma default_TemplateConfig_eq : default_TemplateConfig = Ok default_config.
Proof. reflexivity. Qed.

Lemma bounds_test (config : TemplateConfig) (v : str) :
  (len v <? min_length config) || (len v >? max_length config)
  = negb (in_bounds config v).
Proof.
  unfold in_bounds; rewrite Z.gtb_ltb.
  destruct (Z.ltb_spec (len v) (min_length config)),
           (Z.ltb_spec (max_length config) (len v)),
           (Z.leb_spec (min_length config) (len v)),
           (Z.leb_spec (len v) (max_length config)); simpl; try reflexivity; lia.
Qed.

(** With a bracket set for [allowed_chars], [validate_input] returns, and
    what it returns is the bounds test and the match. *)
Lemma validate_input_eq (config : TemplateConfig) (cs : Re.charset) (s : str) :
  is_class config cs ->
  validate_input (VStr s) (Some config)
  = Ok (in_bounds config (stripped config s)
        && Re.match_plus_end cs (stripped config s)).
Proof.
  unfold is_class, pattern_of, validate_input, stripped, bind; intros Hcs.
  rewrite bounds_test.
  destruct (in_bounds config _) eqn:Hb; cbn [negb andb]; [|reflexivity].
  unfold Re.re_match; rewrite Hcs.
  destruct (Re.match_plus_end cs _); reflexivity.
Qed.

Lemma validate_input_accepts (config : TemplateConfig) (cs : Re.charset)
    (s : str) :
  is_class config cs ->
  validate_input (VStr s) (Some config) = Ok (accepts config s).
Proof.
  intros Hcs; unfold accepts.
  rewrite (validate_input_eq s Hcs); reflexivity.
Qed.

Lemma accepts_in_bounds (config : TemplateConfig) (s : str) :
  accepts config s = true -> in_bounds config (stripped config s) = true.
Proof.
  unfold accepts, validate_input, stripped, bind.
  rewrite bounds_test.
  destruct (in_bounds config _); simpl; [reflexivity | discriminate].
Qed.

(** On a value that, once stripped as configured, does not end with a
    newline, [validate_input] is validation as specified. *)
Lemma validate_input_no_newline (config : TemplateConfig) (cs : Re.charset)
    (s : str) :
  is_class config cs ->
  (forall r, stripped config s <> (r ++ [newline])%list) ->
  validate_input (VStr s) (Some config) = Ok (validate_spec config cs s).
Proof.
  intros Hcs Hnl.
  rewrite (validate_input_eq s Hcs); unfold validate_spec.
  rewrite (match_plus_end_all cs Hnl), andb_assoc; reflexivity.
Qed.

(** So it is whenever stripping is on. *)
Lemma validate_input_stripping (config : TemplateConfig) (cs : Re.charset)
    (s : str) :
  is_class config cs ->
  strip_whitespace config = true ->
  validate_input (VStr s) (Some config) = Ok (validate_spec config cs s).
Proof.
  intros Hcs Hstrip; apply validate_input_no_newline; [exact Hcs|].
  unfold stripped; rewrite Hstrip; intros r E.
  apply strip_last in E; discriminate.
Qed.

(** With stripping off, a newline after an accepted value goes unnoticed,
    as long as the length allows it. *)
Lemma validate_input_newline_appended (config : TemplateConfig)
    (cs : Re.charset) (s : str) :
  is_class config cs ->
  strip_whitespace config = false ->
  forallb (Re.in_class cs) s = true ->
  s <> [] ->
  in_bounds config (s ++ [newline]) = true ->
  validate_input (VStr (s ++ [newline])) (Some config) = Ok true.
Proof.
  intros Hcs Hstrip Hall Hne Hb.
  rewrite (validate_input_eq _ Hcs); unfold stripped; rewrite Hstrip, Hb.
  rewrite (match_plus_end_newline cs Hall Hne); reflexivity.
Qed.


(** An absent configuration is the default one. *)
Lemma validate_input_default (v : value) (config : option TemplateConfig) :
  validate_input v config = validate_input v (Some (config_or_default config)).
Proof. destruct config; reflexivity. Qed.

Lemma process_data_default (data : value) (config : option TemplateConfig) :
  process_data data config = process_data data (Some (config_or_default config)).
Proof. destruct config; reflexivity. Qed.

Lemma length_map_len {A B} (f : A -> B) (l : list A) : len (map f l) = len l.
Proof. unfold len; rewrite length_map; reflexivity. Qed.

(** ** The loop over a list *)

Lemma count_accepted_cons (config : TemplateConfig) (s : str) (l : list str) :
  count_accepted config (s :: l)
  = (if accepts config s then 1 else 0) + count_accepted config l.
Proof.
  unfold count_accepted, len; simpl.
  destruct (accepts config s); simpl List.length; lia.
Qed.

Lemma process_items_text (config : TemplateConfig) (cs : Re.charset) :
  is_class config cs ->
  forall (l : list str) (acc : list item_entry) (n : Z),
    process_items config (map VStr l) acc n
    = Ok ((acc ++ map (item_entry_of config) l)%list,
          n + count_accepted config l).
Proof.
  intros Hcs; induction l as [|s l IH]; intros acc n.
  - simpl; rewrite app_nil_r; unfold count_accepted, len; simpl.
    rewrite Z.add_0_r; reflexivity.
  - cbn [map process_items].
    rewrite (validate_input_accepts s Hcs); cbn [bind].
    rewrite IH, <- app_assoc, count_accepted_cons; simpl.
    unfold item_entry_of at 2.
    destruct (accepts config s); do 2 f_equal; lia.
Qed.

(** The first item that is not text ends the loop. *)
Lemma process_items_not_text (config : TemplateConfig) (cs : Re.charset) :
  is_class config cs ->
  forall l : list value,
    existsb (fun x => negb (is_str x)) l = true ->
    exists item,
      In item l /\ is_str item = false /\
      forall acc n, process_items config l acc n = Raise (ElementTypeError item).
Proof.
  intros Hcs; induction l as [|x l IH]; [discriminate|].
  cbn [existsb].
  destruct x as [| b | z | s | l0 | l0 | d]; cbn [is_str negb orb];
    try (intros _; eexists; split; [left; reflexivity|];
         split; [reflexivity | intros; reflexivity]).
  intros H; destruct (IH H) as (item & Hin & Hstr & Hrun).
  exists item; split; [right; exact Hin|]; split; [exact Hstr|].
  intros acc n; cbn [process_items].
  rewrite (validate_input_accepts s Hcs); cbn [bind].
  apply Hrun.
Qed.

(** What holds of every entry the loop can add holds of all the entries it
    returns: whatever [allowed_chars] is, as long as the loop ends. *)
Lemma process_items_invariant (config : TemplateConfig)
    (P : item_entry -> Prop) :
  (forall s b,
      validate_input (VStr s) (Some config) = Ok b ->
      P {| item_value := stripped config s;
           item_valid := b;
           item_length := len (stripped config s) |}) ->
  forall (l : list value) acc n items n',
    Forall P acc ->
    process_items config l acc n = Ok (items, n') ->
    Forall P items.
Proof.
  intros Hadd; induction l as [|x l IH]; intros acc n items n' Hacc.
  - simpl; intros H; inversion H; subst; exact Hacc.
  - destruct x as [| b | z | s | l0 | l0 | d]; try discriminate.
    cbn [process_items].
    destruct (validate_input (VStr s) (Some config)) as [b|e] eqn:Hv;
      cbn [bind]; [|discriminate].
    apply IH, Forall_app; split; [exact Hacc|].
    constructor; [exact (Hadd s b Hv)|constructor].
Qed.

(** ** Dicts *)

Section DictFacts.

Variable V : Type.
Implicit Types (d : dict str V) (k p : str) (v : V).

Lemma dict_get_set d k v p :
  dict_get str_eqb (dict_set str_eqb d k v) p
  = if str_eqb k p then Some v else dict_get str_eqb d p.
Proof.
  induction d as [|[k' v'] d IH]; simpl; [reflexivity|].
  destruct (str_eqb k' k) eqn:E; simpl.
  - apply str_eqb_eq in E; subst k'.
    destruct (str_eqb k p); reflexivity.
  - destruct (str_eqb k' p) eqn:E'; [|exact IH].
    apply str_eqb_eq in E'; subst k'.
    destruct (str_eqb k p) eqn:E''; [|reflexivity].
    apply str_eqb_eq in E''; subst k.
    rewrite str_eqb_refl in E; discriminate.
Qed.

Lemma dict_set_in d k v p e :
  In (p, e) (dict_set str_eqb d k v) -> In (p, e) d \/ (p = k /\ e = v).
Proof.
  induction d as [|[k' v'] d IH]; simpl.
  - intros [H|[]]; inversion H; auto.
  - destruct (str_eqb k' k) eqn:E; simpl.
    + apply str_eqb_eq in E; subst k'.
      intros [H|H]; [inversion H; auto | auto].
    + intros [H|H]; [auto | destruct (IH H); auto].
Qed.

Lemma dict_set_keys d k v p :
  In p (dict_keys (dict_set str_eqb d k v)) <-> In p (dict_keys d) \/ p = k.
Proof.
  unfold dict_keys; induction d as [|[k' v'] d IH]; simpl.
  - intuition.
  - destruct (str_eqb k' k) eqn:E; simpl.
    + apply str_eqb_eq in E; subst k'; intuition.
    + rewrite IH; intuition.
Qed.

Lemma dict_set_NoDup d k v :
  NoDup (dict_keys d) -> NoDup (dict_keys (dict_set str_eqb d k v)).
Proof.
  induction d as [|[k' v'] d IH]; simpl; intros H.
  - constructor; [intros []|constructor].
  - destruct (str_eqb k' k) eqn:E; simpl; [exact H|].
    inversion H as [|? ? Hk' Hd]; subst.
    constructor; [|apply IH; exact Hd].
    intros Hin; apply dict_set_keys in Hin; destruct Hin as [Hin|Hin].
    + exact (Hk' Hin).
    + subst k'; rewrite str_eqb_refl in E; discriminate.
Qed.

End DictFacts.

Lemma find_app_first {A} (f : A -> bool) (l1 l2 : list A) :
  find f (l1 ++ l2)
  = match find f l1 with Some x => Some x | None => find f l2 end.
Proof.
  induction l1 as [|x l1 IH]; simpl; [reflexivity|].
  destruct (f x); [reflexivity | exact IH].
Qed.

Lemma NoDup_map_eq {A B} (f : A -> B) (l : list A) (x y : A) :
  NoDup (map f l) -> In x l -> In y l -> f x = f y -> x = y.
Proof.
  induction l as [|a l IH]; simpl; [intros _ []|].
  intros H; inversion H as [|? ? Ha Hl]; subst.
  intros [->|Hx] [->|Hy] E; auto.
  - exfalso; apply Ha; rewrite E; apply in_map; exact Hy.
  - exfalso; apply Ha; rewrite <- E; apply in_map; exact Hx.
Qed.

(** ** The loop over the entries of a dict *)

Section Collect.

Variable config : TemplateConfig.

Lemma collect_get (d : list (str * value)) :
  forall (acc : dict str key_entry) (p : str),
    dict_get str_eqb (collect config d acc) p
    = match last_with config p d with
      | Some kv => Some (key_entry_of config kv)
      | None => dict_get str_eqb acc p
      end.
Proof.
  unfold collect, last_with; induction d as [|kv d IH]; intros acc p;
    [reflexivity|].
  cbn [fold_left rev]; rewrite IH, find_app_first.
  destruct (find _ (rev d)); [reflexivity|].
  cbn [find]; rewrite dict_get_set.
  destruct (str_eqb _ p); reflexivity.
Qed.

Lemma collect_in (d : list (str * value)) :
  forall (acc : dict str key_entry) (p : str) (e : key_entry),
    In (p, e) (collect config d acc) ->
    In (p, e) acc \/
    exists kv, In kv d /\ p = stripped config (fst kv)
               /\ e = key_entry_of config kv.
Proof.
  unfold collect; induction d as [|kv d IH]; intros acc p e; [auto|].
  cbn [fold_left]; intros H.
  destruct (IH _ _ _ H) as [H'|(kv' & Hin & Hp & He)].
  - destruct (dict_set_in _ _ _ _ _ H') as [H''|[-> ->]]; [auto|].
    right; exists kv; simpl; auto.
  - right; exists kv'; simpl; auto.
Qed.

Lemma collect_keys (d : list (str * value)) :
  forall (acc : dict str key_entry) (p : str),
    In p (dict_keys (collect config d acc)) <->
    In p (dict_keys acc) \/ In p (map (stripped config) (map fst d)).
Proof.
  unfold collect; induction d as [|kv d IH]; intros acc p;
    [simpl; tauto|].
  cbn [fold_left map]; rewrite IH, dict_set_keys; simpl.
  intuition.
Qed.

Lemma collect_NoDup (d : list (str * value)) :
  forall acc : dict str key_entry,
    NoDup (dict_keys acc) -> NoDup (dict_keys (collect config d acc)).
Proof.
  unfold collect; induction d as [|kv d IH]; intros acc H; [exact H|].
  cbn [fold_left]; apply IH, dict_set_NoDup, H.
Qed.

(** The dict built from an empty one has at most one entry per entry of
    the input, and fewer once two keys strip to the same text. *)
Lemma collect_length (d : list (str * value)) :
  len (collect config d []) <= len d.
Proof.
  unfold len; apply inj_le.
  rewrite <- (length_map fst (collect config d [])).
  rewrite <- (length_map fst d), <- (length_map (stripped config) (map fst d)).
  apply NoDup_incl_length.
  - apply collect_NoDup; constructor.
  - intros p Hp; apply (collect_keys d []) in Hp.
    destruct Hp as [[]|Hp]; exact Hp.
Qed.

Lemma collect_collision (d : list (str * value)) (k1 k2 : str) :
  In k1 (map fst d) -> In k2 (map fst d) -> k1 <> k2 ->
  stripped config k1 = stripped config k2 ->
  len (collect config d []) < len d.
Proof.
  intros H1 H2 Hne Heq.
  destruct (Z.lt_ge_cases (len (collect config d [])) (len d)) as [|Hge];
    [assumption|exfalso].
  apply Hne, (NoDup_map_eq (stripped config) (map fst d)); auto.
  apply (NoDup_incl_NoDup (l := dict_keys (collect config d []))).
  - apply collect_NoDup; constructor.
  - unfold dict_keys; rewrite !length_map; unfold len in Hge; lia.
  - intros p Hp; apply (collect_keys d []) in Hp.
    destruct Hp as [[]|Hp]; exact Hp.
Qed.

Lemma process_entries_text (cs : Re.charset) :
  is_class config cs ->
  forall (d : list (str * value)) (acc : dict str key_entry) (n : Z),
    process_entries config (map (fun kv => (VStr (fst kv), snd kv)) d) acc n
    = Ok (collect config d acc, n + count_accepted config (map fst d)).
Proof.
  intros Hcs; induction d as [|[k v] d IH]; intros acc n.
  - simpl; unfold count_accepted, len; simpl; rewrite Z.add_0_r; reflexivity.
  - cbn [map process_entries fst snd].
    rewrite (validate_input_accepts k Hcs); cbn [bind].
    rewrite IH, count_accepted_cons; unfold collect; cbn [fold_left].
    unfold key_entry_of; cbn [fst snd].
    destruct (accepts config k); do 2 f_equal; lia.
Qed.

(** The first key that is not text ends the loop. *)
Lemma process_entries_not_text (cs : Re.charset) :
  is_class config cs ->
  forall d : list (value * value),
    existsb (fun kv => negb (is_str (fst kv))) d = true ->
    forall acc n, process_entries config d acc n = Raise KeyTypeError.
Proof.
  intros Hcs; induction d as [|[k v] d IH]; [discriminate|].
  cbn [existsb fst].
  destruct k as [| b | z | s | l0 | l0 | d0]; cbn [is_str negb orb];
    try (intros; reflexivity).
  intros H acc n; cbn [process_entries].
  rewrite (validate_input_accepts s Hcs); cbn [bind].
  apply IH, H.
Qed.

End Collect.

(** Entering [process_data]: the configuration is settled, the branch is
    the one of the input at hand. *)
Ltac enter_process_data :=
  rewrite process_data_default;
  unfold process_data, text_list, text_dict; cbn [bind].

(** * The claims *)

(** ** Validation *)

(** C1.  The claim fails on a value that ends with a newline when
    stripping is off: with [strip_whitespace=False] and the other fields at
    their defaults, [validate_input("a\n")] is [True], although the newline
    is not in the class [[a-zA-Z0-9_-]], so that validation as the
    specification words it rejects the value.  The [$] of the pattern also
    holds just before a final newline. *)
Theorem validate_input_trailing_newline :
  is_class nostrip_config default_class /\
  Re.in_class default_class newline = false /\
  validate_input (VStr (lit "a" ++ [newline])) (Some nostrip_config) = Ok true /\
  validate_spec nostrip_config default_class (lit "a" ++ [newline]) = false.
Proof. repeat split. Qed.

(** C7.  The default configuration is [max_length=100], [min_length=1],
    [allowed_chars=[a-zA-Z0-9_-]], [strip_whitespace=True]; under it
    [validate_input] accepts ["test_value"] and rejects the empty string,
    a string of 101 letters [a] and ["test value"]. *)
Theorem validate_input_defaults :
  default_TemplateConfig
  = Ok {| max_length := 100; min_length := 1;
          allowed_chars := lit "[a-zA-Z0-9_-]"; strip_whitespace := true |} /\
  validate_input (VStr (lit "test_value")) None = Ok true /\
  validate_input (VStr (lit "")) None = Ok false /\
  validate_input (VStr (repeat (N_of_ascii "a") 101)) None = Ok false /\
  validate_input (VStr (lit "test value")) None = Ok false.
Proof. repeat split; vm_compute; reflexivity. Qed.

(** C8.  ["  test  "] is accepted under the configuration built with
    [strip_whitespace=True] and rejected under the one built with
    [strip_whitespace=False], the other fields being the defaults. *)
Theorem validate_input_whitespace :
  exists c_strip c_keep,
    new_TemplateConfig None None None (Some true) = Ok c_strip /\
    new_TemplateConfig None None None (Some false) = Ok c_keep /\
    validate_input (VStr (lit "  test  ")) (Some c_strip) = Ok true /\
    validate_input (VStr (lit "  test  ")) (Some c_keep) = Ok false.
Proof. do 2 eexists; repeat split. Qed.

(** ** Configuration *)

(** C5.  Building a [TemplateConfig] raises exactly when [max_length] is
    below [min_length], and what it raises then is the configuration
    error; this is so for [max_length=5, min_length=10]; and a
    configuration that was built has [max_length >= min_length]. *)
Theorem TemplateConfig_construction :
  forall (mx mn : option Z) (ac : option str) (sw : option bool),
    ((exists e, new_TemplateConfig mx mn ac sw = Raise e) <->
     from_option 100 mx < from_option 1 mn) /\
    (forall e, new_TemplateConfig mx mn ac sw = Raise e -> e = ConfigError) /\
    (forall c, new_TemplateConfig mx mn ac sw = Ok c ->
               max_length c >= min_length c) /\
    new_TemplateConfig (Some 5) (Some 10) ac sw = Raise ConfigError.
Proof.
  intros mx mn ac sw; unfold new_TemplateConfig, post_init, bind.
  cbn [max_length min_length].
  destruct (Z.ltb_spec (from_option 100 mx) (from_option 1 mn)) as [Hlt|Hge].
  - repeat split.
    + intros _; exact Hlt.
    + intros _; eexists; reflexivity.
    + intros e H; inversion H; reflexivity.
    + discriminate.
  - repeat split.
    + intros [e H]; discriminate.
    + intros Hlt; lia.
    + discriminate.
    + intros c H; inversion H; subst; simpl; lia.
Qed.

Lemma TemplateConfig_construction_witness :
  new_TemplateConfig (Some 20) (Some 3) None None
  = Ok {| max_length := 20; min_length := 3;
          allowed_chars := lit "[a-zA-Z0-9_-]"; strip_whitespace := true |} /\
  20 >= 3.
Proof.
  split; [reflexivity|].
  exact (proj1 (proj2 (proj2 (TemplateConfig_construction
                                (Some 20) (Some 3) None None)))
               _ eq_refl).
Defined.

(** ** Greeting *)

(** C6, as stated, fails on [None]: it is not text, and the call returns
    the default greeting, the same as a call without argument. *)
Lemma hello_entirius_None :
  is_str VNone = false /\
  hello_entirius VNone = Ok (lit "Hello, World! Welcome to Entirius.") /\
  ~ (forall v, is_str v = false -> hello_entirius v = Raise InputTypeError).
Proof.
  split; [reflexivity|]; split; [reflexivity|].
  intros H; specialize (H VNone eq_refl); discriminate.
Qed.

(** C6, amended.  Without argument (the parameter is then [None]) the
    greeting is ["Hello, World! Welcome to Entirius."]; for a text [n] it is
    ["Hello, " + n + "! Welcome to Entirius."]; and every argument that is
    neither text nor [None], such as [123], raises the name error. *)
Theorem hello_entirius_spec :
  hello_entirius VNone = Ok (lit "Hello, World! Welcome to Entirius.") /\
  (forall n, hello_entirius (VStr n)
             = Ok (lit "Hello, " ++ n ++ lit "! Welcome to Entirius.")%list) /\
  (forall v, is_str v = false -> v <> VNone ->
             hello_entirius v = Raise InputTypeError) /\
  hello_entirius (VInt 123) = Raise InputTypeError.
Proof.
  repeat split.
  intros v Hstr Hnone.
  destruct v; try reflexivity; [contradiction | discriminate].
Qed.

Lemma hello_entirius_spec_witness :
  is_str (VInt 123) = false /\ VInt 123 <> VNone /\
  hello_entirius (VInt 123) = Raise InputTypeError.
Proof.
  split; [reflexivity|]; split; [discriminate|].
  apply (proj1 (proj2 (proj2 hello_entirius_spec)) (VInt 123));
    [reflexivity | discriminate].
Defined.

(** ** Processing a list *)

(** C2.  For a list of text, [process_data] returns the total
    [len(data)], as valid count the number of elements [validate_input]
    accepts, as overall validity whether the two are equal, and for each
    element its value, stripped when [strip_whitespace] is set and as it
    is otherwise, whether [validate_input] accepts the element, and the
    length of that value; what stripping returns is the element without
    the whitespace at its two ends.  For [["a", "b", "bad value"]] under
    the default configuration the total is 3, the valid count 2 and the
    overall validity false, the entries being [a], [b] and [bad value]
    with lengths 1, 1 and 9; for [["  ok_1 ", " no no "]] the entries are
    [ok_1], valid, of length 4 and [no no], not valid, of length 5. *)
Theorem process_data_list :
  (forall (config : option TemplateConfig) (cs : Re.charset) (l : list str),
      is_class (config_or_default config) cs ->
      let c := config_or_default config in
      let reported s := if strip_whitespace c then strip s else s in
      process_data (text_list l) config
      = Ok {| input_type := "list";
              processed_at := "timestamp_placeholder";
              config_used := {| used_max_length := max_length c;
                                used_min_length := min_length c |};
              fields :=
                OfList (map (fun s => {| item_value := reported s;
                                         item_valid := accepts c s;
                                         item_length := len (reported s) |}) l)
                       (len l)
                       (len (filter (accepts c) l))
                       (len (filter (accepts c) l) =? len l) |} /\
      (forall s, validate_input (VStr s) config = Ok (accepts c s))) /\
  (forall s, strips_to s (strip s)) /\
  process_data (text_list [lit "a"; lit "b"; lit "bad value"]) None
  = Ok {| input_type := "list";
          processed_at := "timestamp_placeholder";
          config_used := {| used_max_length := 100; used_min_length := 1 |};
          fields :=
            OfList [ {| item_value := lit "a"; item_valid := true;
                        item_length := 1 |};
                     {| item_value := lit "b"; item_valid := true;
                        item_length := 1 |};
                     {| item_value := lit "bad value"; item_valid := false;
                        item_length := 9 |} ]
                   3 2 false |} /\
  process_data (text_list [lit "  ok_1 "; lit " no no "]) None
  = Ok {| input_type := "list";
          processed_at := "timestamp_placeholder";
          config_used := {| used_max_length := 100; used_min_length := 1 |};
          fields :=
            OfList [ {| item_value := lit "ok_1"; item_valid := true;
                        item_length := 4 |};
                     {| item_value := lit "no no"; item_valid := false;
                        item_length := 5 |} ]
                   2 1 false |}.
Proof.
  split; [|split; [|split; reflexivity]].
  - intros config cs l Hcs c reported; split.
    + enter_process_data; fold c.
      rewrite (process_items_text Hcs); cbn [bind app].
      rewrite length_map_len; reflexivity.
    + intros s; rewrite validate_input_default.
      apply (validate_input_accepts s Hcs).
  - intros s; split; [apply strip_split|]; split.
    + intros c rest E; eapply strip_first; exact E.
    + intros rest c E; eapply strip_last; exact E.
Qed.

Lemma process_data_list_witness :
  is_class default_config default_class /\
  process_data (text_list [lit " ab "; lit "c d"; lit "e_f  "]) None
  = Ok {| input_type := "list";
          processed_at := "timestamp_placeholder";
          config_used := {| used_max_length := 100; used_min_length := 1 |};
          fields :=
            OfList [ {| item_value := lit "ab"; item_valid := true;
                        item_length := 2 |};
                     {| item_value := lit "c d"; item_valid := false;
                        item_length := 3 |};
                     {| item_value := lit "e_f"; item_valid := true;
                        item_length := 3 |} ]
                   3 2 false |} /\
  validate_input (VStr (lit " ab ")) None = Ok true.
Proof.
  split; [reflexivity|].
  split;
    [exact (proj1 (proj1 process_data_list None default_class
                         [lit " ab "; lit "c d"; lit "e_f  "] eq_refl))
    |exact (proj2 (proj1 process_data_list None default_class
                         [lit " ab "; lit "c d"; lit "e_f  "] eq_refl)
                  (lit " ab "))].
Defined.

(** C10.  In a result [process_data] returns for a list, an entry that is
    reported valid has a reported length between [min_length] and
    [max_length] of the configuration in use, and the reported length of
    every entry is the length of its reported value. *)
Theorem process_data_list_valid_bounds :
  forall (config : option TemplateConfig) (l : list value) (r : process_result)
         (items : list item_entry) (total valid_items : Z) (valid : bool)
         (e : item_entry),
    process_data (VList l) config = Ok r ->
    fields r = OfList items total valid_items valid ->
    In e items ->
    item_length e = len (item_value e) /\
    (item_valid e = true ->
     min_length (config_or_default config) <= item_length e
     <= max_length (config_or_default config)).
Proof.
  intros config l r items total valid_items valid e.
  rewrite process_data_default.
  set (c := config_or_default config).
  unfold process_data; cbn [bind].
  destruct (process_items c l [] 0) as [[items' n']|err] eqn:Hrun;
    cbn [bind]; [|discriminate].
  intros Hr Hf Hin; inversion Hr; subst r; cbn [fields header] in Hf.
  inversion Hf; subst.
  revert e Hin; apply Forall_forall.
  apply (@process_items_invariant c) with (l := l) (acc := []) (n := 0)
                                          (n' := valid_items);
    [|constructor|exact Hrun].
  intros s b Hv; cbn [item_length item_value item_valid].
  split; [reflexivity|intros ->].
  assert (Hb : in_bounds c (stripped c s) = true)
    by (apply accepts_in_bounds; unfold accepts; rewrite Hv; reflexivity).
  unfold in_bounds in Hb; apply andb_true_iff in Hb.
  destruct Hb as [H1 H2]; apply Z.leb_le in H1, H2; lia.
Qed.

Lemma process_data_list_valid_bounds_witness :
  let e := {| item_value := lit "ab"; item_valid := true; item_length := 2 |} in
  let r := header (VList [VStr (lit " ab ")]) default_config
                  (OfList [e] 1 1 true) in
  process_data (VList [VStr (lit " ab ")]) None = Ok r /\
  fields r = OfList [e] 1 1 true /\
  In e [e] /\
  item_length e = len (item_value e) /\
  (item_valid e = true -> 1 <= item_length e <= 100).
Proof.
  intros e r.
  split; [reflexivity|]; split; [reflexivity|]; split; [left; reflexivity|].
  exact (@process_data_list_valid_bounds None [VStr (lit " ab ")] r [e] 1 1
           true e eq_refl eq_refl (or_introl eq_refl)).
Defined.

(** ** Processing a dict *)

(** C3.  For a dict with text keys, [process_data] returns the total
    [len(data)], as valid key count the number of keys [validate_input]
    accepts, and as overall validity whether the two are equal; each entry
    of the processed data carries, for an entry of the input, its value
    unchanged, whether its key is accepted, and the name of the type of
    its value. *)
Theorem process_data_dict :
  forall (config : option TemplateConfig) (cs : Re.charset)
         (d : list (str * value)),
    is_class (config_or_default config) cs ->
    let c := config_or_default config in
    process_data (text_dict d) config
    = Ok (header (text_dict d) c
            (OfDict (collect c d []) (len d) (count_accepted c (map fst d))
                    (count_accepted c (map fst d) =? len d))) /\
    (forall p e,
        In (p, e) (collect c d []) ->
        exists k v,
          In (k, v) d /\ p = stripped c k /\
          original_value e = v /\ key_valid e = accepts c k /\
          value_type e = type_name v).
Proof.
  intros config cs d Hcs c; split.
  - enter_process_data; fold c.
    rewrite (process_entries_text Hcs); cbn [bind].
    rewrite length_map_len; reflexivity.
  - intros p e Hin.
    destruct (collect_in _ _ _ _ _ Hin) as [[]|([k v] & Hd & Hp & He)].
    exists k, v; subst e; simpl; auto.
Qed.

Lemma process_data_dict_witness :
  is_class default_config default_class /\
  process_data (text_dict [(lit "k 1", VInt 7); (lit "k2 ", VNone)]) None
  = Ok (header (text_dict [(lit "k 1", VInt 7); (lit "k2 ", VNone)])
               default_config
          (OfDict [ (lit "k 1", {| original_value := VInt 7;
                                   key_valid := false;
                                   value_type := "int" |});
                    (lit "k2", {| original_value := VNone;
                                  key_valid := true;
                                  value_type := "NoneType" |}) ]
                  2 1 false)).
Proof.
  split; [reflexivity|].
  exact (proj1 (@process_data_dict None default_class
                  [(lit "k 1", VInt 7); (lit "k2 ", VNone)] eq_refl)).
Defined.

(** C9.  For a dict with text keys processed with stripping on, the
    processed data is keyed by the stripped keys, and under a stripped key
    stands the report of the last entry whose key strips to it; the
    reported total is still [len(data)], the processed data has at most as
    many entries, and strictly fewer as soon as two distinct keys strip to
    the same text. *)
Theorem process_data_dict_collisions :
  forall (config : option TemplateConfig) (cs : Re.charset)
         (d : list (str * value)),
    is_class (config_or_default config) cs ->
    strip_whitespace (config_or_default config) = true ->
    let c := config_or_default config in
    exists processed valid_keys valid,
      process_data (text_dict d) config
      = Ok (header (text_dict d) c
              (OfDict processed (len d) valid_keys valid)) /\
      (forall p, In p (dict_keys processed) <-> In p (map strip (map fst d))) /\
      (forall p, dict_get str_eqb processed p
                 = option_map (key_entry_of c) (last_with c p d)) /\
      len processed <= len d /\
      (forall k1 k2,
          In k1 (map fst d) -> In k2 (map fst d) -> k1 <> k2 ->
          strip k1 = strip k2 ->
          len processed < len d).
Proof.
  intros config cs d Hcs Hstrip c.
  exists (collect c d []), (count_accepted c (map fst d)),
         (count_accepted c (map fst d) =? len d).
  assert (Hs : forall k, stripped c k = strip k)
    by (intros k; unfold stripped; fold c in Hstrip; rewrite Hstrip; reflexivity).
  split; [|split; [|split; [|split]]].
  - enter_process_data; fold c.
    rewrite (process_entries_text Hcs); cbn [bind].
    rewrite length_map_len; reflexivity.
  - intros p; rewrite (collect_keys c d []).
    rewrite (map_ext _ _ Hs); simpl; tauto.
  - intros p; rewrite collect_get.
    destruct (last_with c p d); reflexivity.
  - apply collect_length.
  - intros k1 k2 H1 H2 Hne Heq.
    apply (collect_collision c d H1 H2 Hne); rewrite !Hs; exact Heq.
Qed.

Lemma process_data_dict_collisions_witness :
  is_class default_config default_class /\
  strip_whitespace default_config = true /\
  In (lit " a") [lit " a"; lit "a"] /\ In (lit "a") [lit " a"; lit "a"] /\
  lit " a" <> lit "a" /\ strip (lit " a") = strip (lit "a") /\
  exists processed valid_keys valid,
    process_data (text_dict [(lit " a", VInt 1); (lit "a", VInt 2)]) None
    = Ok (header (text_dict [(lit " a", VInt 1); (lit "a", VInt 2)])
                 default_config (OfDict processed 2 valid_keys valid)) /\
    dict_get str_eqb processed (lit "a")
    = Some {| original_value := VInt 2; key_valid := true;
              value_type := "int" |} /\
    len processed < 2.
Proof.
  split; [reflexivity|]; split; [reflexivity|].
  split; [left; reflexivity|]; split; [right; left; reflexivity|].
  split; [discriminate|]; split; [reflexivity|].
  destruct (@process_data_dict_collisions None default_class
              [(lit " a", VInt 1); (lit "a", VInt 2)] eq_refl eq_refl)
    as (processed & valid_keys & valid & Hrun & _ & Hget & _ & Hlt).
  exists processed, valid_keys, valid.
  split; [exact Hrun|]; split; [exact (Hget (lit "a"))|].
  apply (Hlt (lit " a") (lit "a"));
    [left; reflexivity | right; left; reflexivity | discriminate | reflexivity].
Defined.

(** ** Errors of [process_data] *)

(** C4.  [process_data] raises the unsupported-type error on every input
    that is not a [str], a [list] or a [dict], as on [123]; the element
    error, naming the type of the first element that is not text, on every
    list that has such an element, as on [[1, 2]]; and the key error on
    every dict that has a key that is not text, as on [{123: "v"}]. *)
Theorem process_data_errors :
  (forall (data : value) (config : option TemplateConfig),
      supported data = false ->
      process_data data config = Raise (UnsupportedTypeError data)) /\
  (forall (l : list value) (config : option TemplateConfig) (cs : Re.charset),
      is_class (config_or_default config) cs ->
      existsb (fun x => negb (is_str x)) l = true ->
      exists item,
        In item l /\ is_str item = false /\
        process_data (VList l) config = Raise (ElementTypeError item)) /\
  (forall (d : list (value * value)) (config : option TemplateConfig)
          (cs : Re.charset),
      is_class (config_or_default config) cs ->
      existsb (fun kv => negb (is_str (fst kv))) d = true ->
      process_data (VDict d) config = Raise KeyTypeError) /\
  process_data (VInt 123) None = Raise (UnsupportedTypeError (VInt 123)) /\
  process_data (VList [VInt 1; VInt 2]) None
  = Raise (ElementTypeError (VInt 1)) /\
  process_data (VDict [(VInt 123, VStr (lit "v"))]) None = Raise KeyTypeError.
Proof.
  split; [|split; [|split; [|repeat split]]].
  - intros data config Hk; rewrite process_data_default.
    destruct data; try discriminate; reflexivity.
  - intros l config cs Hcs Hex.
    destruct (process_items_not_text Hcs l Hex) as (item & Hin & Hstr & Hrun).
    exists item; split; [exact Hin|]; split; [exact Hstr|].
    enter_process_data; rewrite Hrun; reflexivity.
  - intros d config cs Hcs Hex.
    enter_process_data.
    rewrite (process_entries_not_text Hcs d Hex); reflexivity.
Qed.

Lemma process_data_errors_witness :
  supported (VTuple [VStr (lit "a")]) = false /\
  process_data (VTuple [VStr (lit "a")]) None
  = Raise (UnsupportedTypeError (VTuple [VStr (lit "a")])) /\
  is_class default_config default_class /\
  existsb (fun x => negb (is_str x)) [VStr (lit "valid"); VInt 123] = true /\
  (exists item,
      In item [VStr (lit "valid"); VInt 123] /\ is_str item = false /\
      process_data (VList [VStr (lit "valid"); VInt 123]) None
      = Raise (ElementTypeError item)) /\
  existsb (fun kv => negb (is_str (fst kv)))
          [(VStr (lit "k"), VNone); (VBool true, VNone)] = true /\
  process_data (VDict [(VStr (lit "k"), VNone); (VBool true, VNone)]) None
  = Raise KeyTypeError.
Proof.
  split; [reflexivity|].
  split; [exact (proj1 process_data_errors (VTuple [VStr (lit "a")]) None
                       eq_refl)|].
  split; [reflexivity|]; split; [reflexivity|].
  split; [exact (proj1 (proj2 process_data_errors)
                       [VStr (lit "valid"); VInt 123] None
                       default_class eq_refl eq_refl)|].
  split; [reflexivity|].
  exact (proj1 (proj2 (proj2 process_data_errors))
               [(VStr (lit "k"), VNone); (VBool true, VNone)] None
               default_class eq_refl eq_refl).
Defined.

(** * Further properties *)

Lemma stripped_idempotent (config : TemplateConfig) (s : str) :
  stripped config (stripped config s) = stripped config s.
Proof.
  unfold stripped; destruct (strip_whitespace config);
    [apply strip_idempotent | reflexivity].
Qed.

(** [validate_input] sees a text only through its stripped form. *)
Lemma validate_input_stripped (config : TemplateConfig) (s : str) :
  validate_input (VStr (stripped config s)) (Some config)
  = validate_input (VStr s) (Some config).
Proof.
  unfold validate_input; cbn [bind].
  fold (stripped config (stripped config s)); fold (stripped config s).
  rewrite stripped_idempotent; reflexivity.
Qed.

(** ** More on the matcher *)

Lemma match_plus_end_members (cs : Re.charset) (s : str) :
  forallb (Re.in_class cs) s = true -> s <> [] ->
  Re.match_plus_end cs s = true.
Proof.
  induction s as [|c s IH]; [contradiction|].
  cbn [forallb]; intros Hall _.
  apply andb_true_iff in Hall; destruct Hall as [Hc Hs].
  cbn [Re.match_plus_end]; rewrite Hc; cbn [andb].
  destruct s as [|d s]; [reflexivity|].
  rewrite IH; [reflexivity | exact Hs | discriminate].
Qed.

(** What [[...]+$] matches: the non-empty strings of characters of the set,
    and those followed by one newline. *)
Lemma match_plus_end_iff (cs : Re.charset) (s : str) :
  Re.match_plus_end cs s = true <->
  (s <> [] /\ forallb (Re.in_class cs) s = true) \/
  (exists r, s = (r ++ [newline])%list /\ r <> [] /\
             forallb (Re.in_class cs) r = true).
Proof.
  split.
  - induction s as [|c s IH]; [discriminate|].
    cbn [Re.match_plus_end]; intros H.
    apply andb_true_iff in H; destruct H as [Hc H].
    apply orb_true_iff in H; destruct H as [H|H].
    + destruct (IH H) as [[Hne Hall]|(r & -> & Hne & Hall)].
      * left; split; [discriminate|]; simpl; rewrite Hc; exact Hall.
      * right; exists (c :: r); repeat split; [discriminate|].
        simpl; rewrite Hc; exact Hall.
    + destruct (at_end_inv _ H) as [->| ->].
      * left; split; [discriminate|]; simpl; rewrite Hc; reflexivity.
      * right; exists [c]; repeat split; [discriminate|].
        simpl; rewrite Hc; reflexivity.
  - intros [[Hne Hall]|(r & -> & Hne & Hall)].
    + apply match_plus_end_members; assumption.
    + apply match_plus_end_newline; assumption.
Qed.

(** ** More on [validate_input] *)

Lemma accepts_true_iff (config : TemplateConfig) (s : str) :
  accepts config s = true <-> validate_input (VStr s) (Some config) = Ok true.
Proof.
  unfold accepts; destruct (validate_input (VStr s) (Some config)) as [b|e].
  - split; [intros -> | intros H; inversion H]; reflexivity.
  - split; discriminate.
Qed.

Lemma validate_input_returns (config : TemplateConfig) (s : str) (b : bool) :
  validate_input (VStr s) (Some config) = Ok b -> accepts config s = b.
Proof. unfold accepts; intros ->; reflexivity. Qed.

Lemma in_bounds_iff (config : TemplateConfig) (v : str) :
  in_bounds config v = true <->
  min_length config <= len v <= max_length config.
Proof.
  unfold in_bounds; rewrite andb_true_iff, !Z.leb_le; tauto.
Qed.

Lemma default_class_char (c : char) :
  Re.in_class default_class c = default_char c.
Proof.
  unfold Re.in_class, default_class, default_char; simpl.
  rewrite orb_false_r, !orb_assoc; reflexivity.
Qed.

(** ** More on the loops *)

Lemma filter_length_all {A} (f : A -> bool) (l : list A) :
  len (filter f l) <= len l /\
  (len (filter f l) =? len l) = forallb f l.
Proof.
  unfold len; induction l as [|a l [IH1 IH2]]; [split; reflexivity|].
  simpl; destruct (f a); simpl List.length; split; try lia.
  - rewrite <- IH2; destruct (Z.eqb_spec (Z.of_nat (List.length (filter f l)))
                                         (Z.of_nat (List.length l)));
      [apply Z.eqb_eq | apply Z.eqb_neq]; lia.
  - apply Z.eqb_neq; lia.
Qed.

Lemma count_accepted_flagged (config : TemplateConfig) (l : list str) :
  count_accepted config l
  = len (flagged_valid (map (item_entry_of config) l)).
Proof.
  unfold count_accepted, flagged_valid, len; f_equal.
  induction l as [|s l IH]; [reflexivity|].
  simpl; destruct (accepts config s); simpl; congruence.
Qed.

Lemma count_accepted_app (config : TemplateConfig) (l1 l2 : list str) :
  count_accepted config (l1 ++ l2)
  = count_accepted config l1 + count_accepted config l2.
Proof.
  unfold count_accepted, len; rewrite filter_app, length_app; lia.
Qed.

(** The loop over a list returns only on a list of text on which every
    validation returned, and then with the entries and the count of these
    validations. *)
Lemma process_items_inv (config : TemplateConfig) :
  forall (l : list value) acc n items n',
    process_items config l acc n = Ok (items, n') ->
    exists ss,
      l = map VStr ss /\
      Forall (fun s => validate_input (VStr s) (Some config)
                       = Ok (accepts config s)) ss /\
      items = (acc ++ map (item_entry_of config) ss)%list /\
      n' = n + count_accepted config ss.
Proof.
  induction l as [|x l IH]; intros acc n items n'.
  - simpl; intros H; inversion H; subst; exists [].
    rewrite app_nil_r; unfold count_accepted, len; simpl.
    repeat split; [constructor | lia].
  - destruct x as [| b | z | s | l0 | l0 | d]; try discriminate.
    cbn [process_items].
    destruct (validate_input (VStr s) (Some config)) as [b|e] eqn:Hv;
      cbn [bind]; [|discriminate].
    intros H; destruct (IH _ _ _ _ H) as (ss & -> & Hall & -> & ->).
    pose proof (validate_input_returns _ _ Hv) as Ha.
    exists (s :: ss); rewrite count_accepted_cons, <- app_assoc, Ha.
    repeat split.
    + constructor; [rewrite Ha; exact Hv | exact Hall].
    + cbn [map app]; unfold item_entry_of; rewrite Ha; reflexivity.
    + destruct b; lia.
Qed.

Lemma process_items_run (config : TemplateConfig) :
  forall (ss : list str) acc n,
    Forall (fun s => validate_input (VStr s) (Some config)
                     = Ok (accepts config s)) ss ->
    process_items config (map VStr ss) acc n
    = Ok ((acc ++ map (item_entry_of config) ss)%list,
          n + count_accepted config ss).
Proof.
  induction ss as [|s ss IH]; intros acc n Hall.
  - simpl; rewrite app_nil_r; unfold count_accepted, len; simpl.
    rewrite Z.add_0_r; reflexivity.
  - inversion Hall as [|? ? Hs Hss]; subst.
    cbn [map process_items]; rewrite Hs; cbn [bind].
    rewrite (IH _ _ Hss), <- app_assoc, count_accepted_cons; simpl.
    unfold item_entry_of at 2.
    destruct (accepts config s); do 2 f_equal; lia.
Qed.

(** The same for the loop over the items of a dict. *)
Lemma process_entries_inv (config : TemplateConfig) :
  forall (d : list (value * value)) acc n processed n',
    process_entries config d acc n = Ok (processed, n') ->
    exists ks,
      d = map (fun kv => (VStr (fst kv), snd kv)) ks /\
      processed = collect config ks acc /\
      n' = n + count_accepted config (map fst ks).
Proof.
  induction d as [|[k v] d IH]; intros acc n processed n'.
  - simpl; intros H; inversion H; subst; exists [].
    unfold count_accepted, len; simpl; repeat split; lia.
  - destruct k as [| b | z | s | l0 | l0 | d0]; try discriminate.
    cbn [process_entries].
    destruct (validate_input (VStr s) (Some config)) as [b|e] eqn:Hv;
      cbn [bind]; [|discriminate].
    intros H; destruct (IH _ _ _ _ H) as (ks & -> & -> & ->).
    pose proof (validate_input_returns _ _ Hv) as Ha.
    exists ((s, v) :: ks); cbn [map fst snd]; rewrite count_accepted_cons, Ha.
    repeat split.
    + unfold collect; cbn [fold_left]; unfold key_entry_of; cbn [fst snd].
      rewrite Ha; reflexivity.
    + destruct b; lia.
Qed.

(** ** Dicts without collisions *)

Lemma dict_set_fresh {V} (d : dict str V) (k : str) (v : V) :
  ~ In k (dict_keys d) -> dict_set str_eqb d k v = (d ++ [(k, v)])%list.
Proof.
  induction d as [|[k' v'] d IH]; simpl; [reflexivity|].
  intros H; destruct (str_eqb k' k) eqn:E.
  - apply str_eqb_eq in E; tauto.
  - rewrite IH; [reflexivity | tauto].
Qed.

Lemma collect_fresh (config : TemplateConfig) (d : list (str * value)) :
  forall acc : dict str key_entry,
    NoDup (dict_keys acc ++ map (stripped config) (map fst d)) ->
    collect config d acc = (acc ++ map (entry_of_item config) d)%list.
Proof.
  unfold collect; induction d as [|kv d IH]; intros acc H.
  - simpl; rewrite app_nil_r; reflexivity.
  - cbn [fold_left map] in *.
    rewrite dict_set_fresh by (apply NoDup_remove_2 in H; intros Hin;
                               apply H, in_or_app; left; exact Hin).
    rewrite IH, <- app_assoc; [reflexivity|].
    unfold dict_keys in *; rewrite map_app, <- app_assoc; exact H.
Qed.

Lemma forallb_pointwise {A} (f g : A -> bool) (l : list A) :
  (forall a, f a = g a) -> forallb f l = forallb g l.
Proof.
  intros H; induction l as [|a l IH]; simpl; [reflexivity|].
  rewrite H, IH; reflexivity.
Qed.

(** ** Validation, further *)

(** X1.  [validate_input] raises [TemplateError("Value must be a string")]
    on every value that is not text, with or without a configuration. *)
Theorem validate_input_not_text :
  forall (v : value) (config : option TemplateConfig),
    is_str v = false ->
    validate_input v config = Raise (TemplateError "Value must be a string").
Proof. intros v config H; destruct v; try reflexivity; discriminate. Qed.

Lemma validate_input_not_text_witness :
  is_str (VList [VStr (lit "a")]) = false /\
  validate_input (VList [VStr (lit "a")]) None
  = Raise (TemplateError "Value must be a string").
Proof.
  split; [reflexivity|].
  exact (validate_input_not_text (VList [VStr (lit "a")]) None eq_refl).
Defined.

(** X2.  A text whose length, after stripping as configured, is outside
    [min_length .. max_length] is rejected before the pattern is looked
    at: [validate_input] returns [False] whatever [allowed_chars] is, even
    a pattern that does not compile. *)
Theorem validate_input_out_of_bounds :
  forall (config : option TemplateConfig) (s : str),
    in_bounds (config_or_default config)
              (stripped (config_or_default config) s) = false ->
    validate_input (VStr s) config = Ok false.
Proof.
  intros config s H; rewrite validate_input_default.
  unfold validate_input; cbn [bind].
  fold (stripped (config_or_default config) s).
  rewrite bounds_test, H; reflexivity.
Qed.

Lemma validate_input_out_of_bounds_witness :
  let c := {| max_length := 3; min_length := 2; allowed_chars := lit "[";
              strip_whitespace := true |} in
  in_bounds c (stripped c (lit " abcd ")) = false /\
  Re.parse (pattern_of c) = None /\
  validate_input (VStr (lit " abcd ")) (Some c) = Ok false.
Proof.
  intros c; split; [reflexivity|]; split; [reflexivity|].
  exact (validate_input_out_of_bounds (Some c) (lit " abcd ") eq_refl).
Defined.

(** X3.  With a bracket set for [allowed_chars], [validate_input] returns
    [True] exactly when the value, stripped as configured, has a length
    within the bounds and is either a non-empty string of characters of
    the set, or such a string followed by one newline. *)
Theorem validate_input_true_iff :
  forall (config : option TemplateConfig) (cs : Re.charset) (s : str),
    is_class (config_or_default config) cs ->
    let c := config_or_default config in
    let v := stripped c s in
    validate_input (VStr s) config = Ok true <->
    min_length c <= len v <= max_length c /\
    ((v <> [] /\ forallb (Re.in_class cs) v = true) \/
     (exists r, v = (r ++ [newline])%list /\ r <> [] /\
                forallb (Re.in_class cs) r = true)).
Proof.
  intros config cs s Hcs c v.
  rewrite validate_input_default, (validate_input_eq s Hcs).
  fold c; fold v.
  rewrite <- in_bounds_iff, <- match_plus_end_iff, <- andb_true_iff.
  split; [intros H; inversion H; reflexivity | intros ->; reflexivity].
Qed.

Lemma validate_input_true_iff_witness :
  is_class nostrip_config default_class /\
  (validate_input (VStr (lit "ab" ++ [newline])) (Some nostrip_config) = Ok true
   <->
   1 <= 3 <= 100 /\
   ((lit "ab" ++ [newline] <> [] /\
     forallb (Re.in_class default_class) (lit "ab" ++ [newline]) = true) \/
    (exists r, (lit "ab" ++ [newline] = r ++ [newline])%list /\ r <> [] /\
               forallb (Re.in_class default_class) r = true))).
Proof.
  split; [reflexivity|].
  exact (@validate_input_true_iff (Some nostrip_config) default_class
           (lit "ab" ++ [newline]) eq_refl).
Defined.

(** X4.  With a bracket set for [allowed_chars], a text that is empty
    after stripping as configured is rejected, also when [min_length] is
    zero or negative: the pattern asks for one character at least. *)
Theorem validate_input_empty :
  forall (config : option TemplateConfig) (cs : Re.charset) (s : str),
    is_class (config_or_default config) cs ->
    stripped (config_or_default config) s = [] ->
    validate_input (VStr s) config = Ok false.
Proof.
  intros config cs s Hcs Hv.
  rewrite validate_input_default, (validate_input_eq s Hcs), Hv.
  rewrite andb_false_r; reflexivity.
Qed.

Lemma validate_input_empty_witness :
  let c := {| max_length := 10; min_length := 0;
              allowed_chars := lit "[a-z]"; strip_whitespace := true |} in
  is_class c {| Re.negate := false; Re.members := [Re.RANGE 97 122]%N |} /\
  stripped c (lit "   ") = [] /\
  in_bounds c (stripped c (lit "   ")) = true /\
  validate_input (VStr (lit "   ")) (Some c) = Ok false.
Proof.
  intros c; split; [reflexivity|]; split; [reflexivity|].
  split; [reflexivity|].
  exact (@validate_input_empty (Some c)
           {| Re.negate := false; Re.members := [Re.RANGE 97 122]%N |}
           (lit "   ") eq_refl eq_refl).
Defined.

(** X5.  With stripping on, whitespace before and after a text makes no
    difference to [validate_input]: it returns, or raises, the same as on
    the text itself, whatever [allowed_chars] is. *)
Theorem validate_input_padding :
  forall (config : option TemplateConfig) (pre s post : str),
    strip_whitespace (config_or_default config) = true ->
    forallb isspace pre = true ->
    forallb isspace post = true ->
    validate_input (VStr (pre ++ s ++ post)) config
    = validate_input (VStr s) config.
Proof.
  intros config pre s post Hstrip Hpre Hpost.
  rewrite !(validate_input_default _ config).
  unfold validate_input; cbn [bind]; rewrite Hstrip.
  rewrite (@strip_padding pre s post Hpre Hpost); reflexivity.
Qed.

Lemma validate_input_padding_witness :
  strip_whitespace default_config = true /\
  forallb isspace [0x09; 0xa0]%N = true /\
  forallb isspace [0x0a; 0x3000]%N = true /\
  validate_input (VStr ([0x09; 0xa0]%N ++ lit "id-7" ++ [0x0a; 0x3000]%N)) None
  = validate_input (VStr (lit "id-7")) None.
Proof.
  split; [reflexivity|]; split; [reflexivity|]; split; [reflexivity|].
  exact (@validate_input_padding None [0x09; 0xa0]%N (lit "id-7")
           [0x0a; 0x3000]%N eq_refl eq_refl eq_refl).
Defined.

(** X16.  Under the default configuration [validate_input] returns [True]
    exactly on the texts whose stripped form has between 1 and 100
    characters, all of them ASCII letters, digits, underscores or dashes. *)
Theorem validate_input_default_iff :
  forall s : str,
    validate_input (VStr s) None = Ok true <->
    1 <= len (strip s) <= 100 /\ forallb default_char (strip s) = true.
Proof.
  intros s.
  change (validate_input (VStr s) None)
    with (validate_input (VStr s) (Some default_config)).
  rewrite (@validate_input_stripping default_config default_class s
             eq_refl eq_refl).
  unfold validate_spec; change (stripped default_config s) with (strip s).
  rewrite (forallb_pointwise _ _ (strip s) default_class_char).
  split.
  - intros H; injection H as H'.
    apply andb_true_iff in H'; destruct H' as [H' _].
    apply andb_true_iff in H'; destruct H' as [Hb Hall].
    apply in_bounds_iff in Hb; auto.
  - intros [Hb Hall]; f_equal.
    rewrite Hall, (proj2 (in_bounds_iff default_config (strip s)) Hb).
    apply negb_true_iff, Z.eqb_neq; lia.
Qed.

(** ** Processing, further *)

(** X6.  In every result [process_data] returns for a list, validating
    the reported value of an entry again, under the same configuration,
    returns the validity the entry reports. *)
Theorem process_data_list_revalidate :
  forall (config : option TemplateConfig) (l : list value) (r : process_result)
         (items : list item_entry) (total valid_items : Z) (valid : bool)
         (e : item_entry),
    process_data (VList l) config = Ok r ->
    fields r = OfList items total valid_items valid ->
    In e items ->
    validate_input (VStr (item_value e)) config = Ok (item_valid e).
Proof.
  intros config l r items total valid_items valid e.
  rewrite process_data_default, validate_input_default.
  set (c := config_or_default config).
  unfold process_data; cbn [bind].
  destruct (process_items c l [] 0) as [[items' n']|err] eqn:Hrun;
    cbn [bind]; [|discriminate].
  intros Hr Hf Hin; inversion Hr; subst r; cbn [fields] in Hf.
  inversion Hf; subst.
  revert e Hin; apply Forall_forall.
  apply (@process_items_invariant c) with (l := l) (acc := []) (n := 0)
                                          (n' := valid_items);
    [|constructor|exact Hrun].
  intros s b Hv; cbn [item_value item_valid].
  rewrite validate_input_stripped; exact Hv.
Qed.

Lemma process_data_list_revalidate_witness :
  let e := {| item_value := lit "a b"; item_valid := false;
              item_length := 3 |} in
  let r := header (VList [VStr (lit " a b ")]) default_config
                  (OfList [e] 1 0 false) in
  process_data (VList [VStr (lit " a b ")]) None = Ok r /\
  fields r = OfList [e] 1 0 false /\
  In e [e] /\
  validate_input (VStr (item_value e)) None = Ok (item_valid e).
Proof.
  intros e r.
  split; [reflexivity|]; split; [reflexivity|]; split; [left; reflexivity|].
  exact (@process_data_list_revalidate None [VStr (lit " a b ")] r [e] 1 0
           false e eq_refl eq_refl (or_introl eq_refl)).
Defined.

(** X7.  Whenever [process_data] returns for a list, every element of the
    list is text, there is one entry per element, [total_items] is the
    length of the list, [valid_items] is the number of entries flagged
    valid, hence between 0 and [total_items], and [valid] tells whether
    all entries are flagged valid. *)
Theorem process_data_list_shape :
  forall (config : option TemplateConfig) (l : list value) (r : process_result),
    process_data (VList l) config = Ok r ->
    exists items,
      fields r = OfList items (len l) (len (flagged_valid items))
                        (forallb item_valid items) /\
      len items = len l /\
      0 <= len (flagged_valid items) <= len l /\
      Forall (fun x => is_str x = true) l.
Proof.
  intros config l r; rewrite process_data_default.
  set (c := config_or_default config).
  unfold process_data; cbn [bind].
  destruct (process_items c l [] 0) as [[items n']|err] eqn:Hrun;
    cbn [bind]; [|discriminate].
  intros Hr; inversion Hr; subst r; cbn [fields].
  destruct (process_items_inv _ _ _ _ Hrun) as (ss & -> & _ & -> & ->).
  exists (map (item_entry_of c) ss); cbn [app].
  rewrite Z.add_0_l, count_accepted_flagged, !length_map_len.
  destruct (filter_length_all item_valid (map (item_entry_of c) ss))
    as [Hle Hall].
  fold (flagged_valid (map (item_entry_of c) ss)) in Hle, Hall.
  rewrite length_map_len in Hle, Hall; rewrite Hall.
  repeat split; [unfold len; lia | exact Hle |].
  apply Forall_forall; intros x Hx; apply in_map_iff in Hx.
  destruct Hx as (s & <- & _); reflexivity.
Qed.

Lemma process_data_list_shape_witness :
  exists r,
    process_data (VList [VStr (lit "ok"); VStr (lit "no!")]) None = Ok r /\
    exists items,
      fields r = OfList items 2 (len (flagged_valid items))
                        (forallb item_valid items) /\
      len items = 2 /\ 0 <= len (flagged_valid items) <= 2 /\
      Forall (fun x => is_str x = true) [VStr (lit "ok"); VStr (lit "no!")].
Proof.
  eexists; split; [reflexivity|].
  exact (@process_data_list_shape None [VStr (lit "ok"); VStr (lit "no!")]
           _ eq_refl).
Defined.

(** X8.  Whenever [process_data] returns for a dict, every key is text,
    [total_keys] is the number of items, [valid_keys] is between 0 and
    [total_keys], [valid] tells whether the two are equal, which is so
    exactly when [validate_input] returns [True] on every key, and the
    processed data has pairwise distinct keys and no more entries than
    the dict has items. *)
Theorem process_data_dict_shape :
  forall (config : option TemplateConfig) (d : list (value * value))
         (r : process_result),
    process_data (VDict d) config = Ok r ->
    exists processed valid_keys,
      fields r = OfDict processed (len d) valid_keys (valid_keys =? len d) /\
      0 <= valid_keys <= len d /\
      (valid_keys = len d <->
       forall k v, In (k, v) d -> validate_input k config = Ok true) /\
      NoDup (dict_keys processed) /\
      len processed <= len d /\
      Forall (fun kv => is_str (fst kv) = true) d.
Proof.
  intros config d r; rewrite process_data_default.
  set (c := config_or_default config).
  unfold process_data; cbn [bind].
  destruct (process_entries c d [] 0) as [[processed n']|err] eqn:Hrun;
    cbn [bind]; [|discriminate].
  intros Hr; inversion Hr; subst r; cbn [fields].
  destruct (process_entries_inv _ _ _ _ Hrun) as (ks & -> & -> & ->).
  exists (collect c ks []), (count_accepted c (map fst ks)).
  rewrite Z.add_0_l, !length_map_len.
  destruct (filter_length_all (accepts c) (map fst ks)) as [Hle Hall].
  fold (count_accepted c (map fst ks)) in Hle, Hall.
  rewrite length_map_len in Hle, Hall.
  split; [reflexivity|]; split; [split; [unfold count_accepted, len; lia|exact Hle]|].
  split; [|split; [apply collect_NoDup; constructor|
                   split; [apply collect_length|]]].
  - rewrite <- Z.eqb_eq, Hall, forallb_forall; split.
    + intros H k v Hin; apply in_map_iff in Hin.
      destruct Hin as ([k' v'] & E & Hin); cbn [fst snd] in E.
      injection E as <- <-.
      rewrite validate_input_default; apply accepts_true_iff, H.
      apply in_map_iff; exists (k', v'); auto.
    + intros H k Hin; apply in_map_iff in Hin.
      destruct Hin as ([k' v'] & <- & Hin); cbn [fst].
      apply accepts_true_iff; unfold c; rewrite <- validate_input_default.
      apply (H (VStr k') v'), in_map_iff; exists (k', v'); auto.
  - apply Forall_forall; intros kv Hin; apply in_map_iff in Hin.
    destruct Hin as (kv' & <- & _); reflexivity.
Qed.

Lemma process_data_dict_shape_witness :
  exists r,
    process_data (VDict [(VStr (lit "a"), VInt 1); (VStr (lit "a "), VNone);
                         (VStr (lit "b c"), VNone)]) None = Ok r /\
    exists processed valid_keys,
      fields r = OfDict processed 3 valid_keys (valid_keys =? 3) /\
      0 <= valid_keys <= 3 /\
      (valid_keys = 3 <->
       forall k v,
         In (k, v) [(VStr (lit "a"), VInt 1); (VStr (lit "a "), VNone);
                    (VStr (lit "b c"), VNone)] ->
         validate_input k None = Ok true) /\
      NoDup (dict_keys processed) /\
      len processed <= 3 /\
      Forall (fun kv : value * value => is_str (fst kv) = true)
             [(VStr (lit "a"), VInt 1); (VStr (lit "a "), VNone);
              (VStr (lit "b c"), VNone)].
Proof.
  eexists; split; [reflexivity|].
  exact (@process_data_dict_shape None
           [(VStr (lit "a"), VInt 1); (VStr (lit "a "), VNone);
            (VStr (lit "b c"), VNone)] _ eq_refl).
Defined.

(** X9.  For a dict with text keys whose stripped keys are pairwise
    distinct (as are, with stripping off, the keys of any dict), the
    processed data has exactly one entry per item, in the order of the
    items. *)
Theorem process_data_dict_distinct :
  forall (config : option TemplateConfig) (cs : Re.charset)
         (d : list (str * value)),
    is_class (config_or_default config) cs ->
    NoDup (map (stripped (config_or_default config)) (map fst d)) ->
    let c := config_or_default config in
    process_data (text_dict d) config
    = Ok (header (text_dict d) c
            (OfDict (map (entry_of_item c) d) (len d)
                    (count_accepted c (map fst d))
                    (count_accepted c (map fst d) =? len d))).
Proof.
  intros config cs d Hcs Hnd c.
  enter_process_data; fold c.
  rewrite (process_entries_text Hcs); cbn [bind].
  rewrite (collect_fresh (config_or_default config) d []) by exact Hnd.
  rewrite length_map_len; reflexivity.
Qed.

Lemma process_data_dict_distinct_witness :
  is_class default_config default_class /\
  NoDup (map (stripped default_config)
             (map fst [(lit "b ", VInt 1); (lit " a", VBool true)])) /\
  process_data (text_dict [(lit "b ", VInt 1); (lit " a", VBool true)]) None
  = Ok (header (text_dict [(lit "b ", VInt 1); (lit " a", VBool true)])
               default_config
          (OfDict [ (lit "b", {| original_value := VInt 1; key_valid := true;
                                 value_type := "int" |});
                    (lit "a", {| original_value := VBool true;
                                 key_valid := true; value_type := "bool" |}) ]
                  2 2 true)).
Proof.
  assert (Hnd : NoDup (map (stripped default_config)
                 (map fst [(lit "b ", VInt 1); (lit " a", VBool true)]))).
  { repeat constructor; simpl; intuition discriminate. }
  split; [reflexivity|]; split; [exact Hnd|].
  exact (@process_data_dict_distinct None default_class
           [(lit "b ", VInt 1); (lit " a", VBool true)] eq_refl Hnd).
Defined.

Lemma strip_length (s : str) : len (strip s) <= len s.
Proof.
  destruct (strip_split s) as (pre & post & E & _).
  rewrite E at 2; unfold len; rewrite !length_app; lia.
Qed.

(** X10.  For a text and a bracket set for [allowed_chars], [process_data]
    returns the stripped text, what [validate_input] returns on the text,
    and the length of the stripped text; that length is at most the length
    of the input, and within the bounds when the text is reported valid. *)
Theorem process_data_text :
  forall (config : option TemplateConfig) (cs : Re.charset) (s : str),
    is_class (config_or_default config) cs ->
    let c := config_or_default config in
    process_data (VStr s) config
    = Ok (header (VStr s) c
            (OfStr (stripped c s) (accepts c s) (len (stripped c s)))) /\
    validate_input (VStr s) config = Ok (accepts c s) /\
    len (stripped c s) <= len s /\
    (accepts c s = true ->
     min_length c <= len (stripped c s) <= max_length c).
Proof.
  intros config cs s Hcs c.
  split; [|split; [|split]].
  - enter_process_data.
    rewrite (validate_input_accepts s Hcs); reflexivity.
  - rewrite validate_input_default; apply (validate_input_accepts s Hcs).
  - unfold stripped; destruct (strip_whitespace c);
      [apply strip_length | lia].
  - intros H; apply in_bounds_iff, accepts_in_bounds, H.
Qed.

Lemma process_data_text_witness :
  is_class default_config default_class /\
  process_data (VStr (lit "  test  ")) None
  = Ok (header (VStr (lit "  test  ")) default_config
               (OfStr (lit "test") true 4)) /\
  validate_input (VStr (lit "  test  ")) None = Ok true /\
  4 <= 8 /\ (true = true -> 1 <= 4 <= 100).
Proof.
  split; [reflexivity|].
  exact (@process_data_text None default_class (lit "  test  ") eq_refl).
Defined.

(** X11.  A list of one text is processed as the text is: when
    [process_data] returns value, validity and length for a text, it
    returns for the list holding just that text one entry with the same
    three, a valid count of 1 or 0, and the same overall validity. *)
Theorem process_data_singleton :
  forall (config : option TemplateConfig) (s v : str) (b : bool) (n : Z)
         (r : process_result),
    process_data (VStr s) config = Ok r ->
    fields r = OfStr v b n ->
    process_data (VList [VStr s]) config
    = Ok (header (VList [VStr s]) (config_or_default config)
            (OfList [{| item_value := v; item_valid := b; item_length := n |}]
                    1 (if b then 1 else 0) b)).
Proof.
  intros config s v b n r; rewrite !(process_data_default _ config).
  unfold process_data; cbn [bind process_items].
  destruct (validate_input (VStr s) (Some (config_or_default config)))
    as [b'|e]; cbn [bind]; [|discriminate].
  intros Hr Hf; inversion Hr; subst r; cbn [fields] in Hf.
  inversion Hf; subst; destruct b; reflexivity.
Qed.

Lemma process_data_singleton_witness :
  let r := header (VStr (lit " x y ")) default_config
                  (OfStr (lit "x y") false 3) in
  process_data (VStr (lit " x y ")) None = Ok r /\
  fields r = OfStr (lit "x y") false 3 /\
  process_data (VList [VStr (lit " x y ")]) None
  = Ok (header (VList [VStr (lit " x y ")]) default_config
          (OfList [{| item_value := lit "x y"; item_valid := false;
                      item_length := 3 |}] 1 0 false)).
Proof.
  intros r; split; [reflexivity|]; split; [reflexivity|].
  exact (@process_data_singleton None (lit " x y ") (lit "x y") false 3 r
           eq_refl eq_refl).
Defined.

(** X12.  Processing the concatenation of two lists that [process_data]
    both returns for gives the entries of the first followed by those of
    the second, the sums of the totals and of the valid counts, and an
    overall validity that is the conjunction of the two. *)
Theorem process_data_list_app :
  forall (config : option TemplateConfig) (l1 l2 : list value)
         (r1 r2 : process_result) (i1 i2 : list item_entry)
         (t1 t2 n1 n2 : Z) (b1 b2 : bool),
    process_data (VList l1) config = Ok r1 ->
    process_data (VList l2) config = Ok r2 ->
    fields r1 = OfList i1 t1 n1 b1 ->
    fields r2 = OfList i2 t2 n2 b2 ->
    process_data (VList (l1 ++ l2)) config
    = Ok (header (VList (l1 ++ l2)) (config_or_default config)
            (OfList (i1 ++ i2) (t1 + t2) (n1 + n2) (b1 && b2))).
Proof.
  intros config l1 l2 r1 r2 i1 i2 t1 t2 n1 n2 b1 b2.
  rewrite !(process_data_default _ config).
  set (c := config_or_default config).
  unfold process_data; cbn [bind].
  destruct (process_items c l1 [] 0) as [[i1' n1']|e1] eqn:H1;
    cbn [bind]; [|discriminate].
  destruct (process_items c l2 [] 0) as [[i2' n2']|e2] eqn:H2;
    cbn [bind]; [|discriminate].
  intros Hr1 Hr2 Hf1 Hf2; inversion Hr1; inversion Hr2; subst r1 r2.
  cbn [fields] in Hf1, Hf2; inversion Hf1; inversion Hf2; subst.
  destruct (process_items_inv _ _ _ _ H1) as (s1 & -> & Ha1 & -> & ->).
  destruct (process_items_inv _ _ _ _ H2) as (s2 & -> & Ha2 & -> & ->).
  rewrite <- map_app, process_items_run by (apply Forall_app; auto).
  cbn [bind app]; rewrite map_app, count_accepted_app, !Z.add_0_l.
  unfold header; do 3 f_equal.
  - apply map_app.
  - unfold len; rewrite length_app; lia.
  - assert (E : len (map VStr s1 ++ map VStr s2) = len s1 + len s2)
      by (unfold len; rewrite length_app, !length_map; lia).
    rewrite E, !length_map_len.
    destruct (filter_length_all (accepts c) s1) as [Hle1 _].
    destruct (filter_length_all (accepts c) s2) as [Hle2 _].
    fold (count_accepted c s1) in Hle1; fold (count_accepted c s2) in Hle2.
    destruct (Z.eqb_spec (count_accepted c s1) (len s1)),
             (Z.eqb_spec (count_accepted c s2) (len s2)); cbn [andb];
      [apply Z.eqb_eq | apply Z.eqb_neq ..]; lia.
Qed.

Lemma process_data_list_app_witness :
  let e1 := {| item_value := lit "a"; item_valid := true; item_length := 1 |} in
  let e2 := {| item_value := lit "?"; item_valid := false; item_length := 1 |} in
  let r1 := header (VList [VStr (lit "a")]) default_config
                   (OfList [e1] 1 1 true) in
  let r2 := header (VList [VStr (lit "?")]) default_config
                   (OfList [e2] 1 0 false) in
  process_data (VList [VStr (lit "a")]) None = Ok r1 /\
  process_data (VList [VStr (lit "?")]) None = Ok r2 /\
  fields r1 = OfList [e1] 1 1 true /\
  fields r2 = OfList [e2] 1 0 false /\
  process_data (VList ([VStr (lit "a")] ++ [VStr (lit "?")])) None
  = Ok (header (VList [VStr (lit "a"); VStr (lit "?")]) default_config
          (OfList [e1; e2] 2 1 false)).
Proof.
  intros e1 e2 r1 r2.
  split; [reflexivity|]; split; [reflexivity|].
  split; [reflexivity|]; split; [reflexivity|].
  exact (@process_data_list_app None [VStr (lit "a")] [VStr (lit "?")] r1 r2
           [e1] [e2] 1 1 1 0 true false eq_refl eq_refl eq_refl eq_refl).
Defined.

(** X14.  Whenever [process_data] returns, its input is a [str], a [list]
    or a [dict], and the result names the type of the input, carries the
    fixed text ["timestamp_placeholder"] for the time, and reports the
    [max_length] and [min_length] of the configuration in use. *)
Theorem process_data_header :
  forall (data : value) (config : option TemplateConfig) (r : process_result),
    process_data data config = Ok r ->
    supported data = true /\
    input_type r = type_name data /\
    processed_at r = "timestamp_placeholder"%string /\
    config_used r
    = {| used_max_length := max_length (config_or_default config);
         used_min_length := min_length (config_or_default config) |}.
Proof.
  intros data config r; rewrite process_data_default.
  set (c := config_or_default config).
  unfold process_data; cbn [bind].
  destruct data as [| b | z | s | l | l | d]; try discriminate.
  - destruct (validate_input (VStr s) (Some c)); cbn [bind];
      [|discriminate].
    intros H; inversion H; repeat split.
  - destruct (process_items c l [] 0) as [[i n]|e]; cbn [bind];
      [|discriminate].
    intros H; inversion H; repeat split.
  - destruct (process_entries c d [] 0) as [[p n]|e]; cbn [bind];
      [|discriminate].
    intros H; inversion H; repeat split.
Qed.

Lemma process_data_header_witness :
  let c := {| max_length := 5; min_length := 2;
              allowed_chars := lit "[a-zA-Z0-9_-]";
              strip_whitespace := true |} in
  let r := header (VStr (lit "toolong")) c (OfStr (lit "toolong") false 7) in
  process_data (VStr (lit "toolong")) (Some c) = Ok r /\
  supported (VStr (lit "toolong")) = true /\
  input_type r = "str"%string /\
  processed_at r = "timestamp_placeholder"%string /\
  config_used r = {| used_max_length := 5; used_min_length := 2 |}.
Proof.
  intros c r; split; [reflexivity|].
  exact (@process_data_header (VStr (lit "toolong")) (Some c) r eq_refl).
Defined.

(** X15.  An empty list and an empty dict are processed without any
    validation: under every configuration, whatever its [allowed_chars],
    [process_data] returns no entries, counts of zero, and an overall
    validity of [True]. *)
Theorem process_data_empty :
  forall config : option TemplateConfig,
    process_data (VList []) config
    = Ok (header (VList []) (config_or_default config) (OfList [] 0 0 true)) /\
    process_data (VDict []) config
    = Ok (header (VDict []) (config_or_default config) (OfDict [] 0 0 true)).
Proof. intros [c|]; split; reflexivity. Qed.

(** X17.  With stripping on, the processed value [process_data] reports
    for a text neither starts nor ends with whitespace, the input is that
    value between two runs of whitespace, and the reported length is the
    length of the value. *)
Theorem process_data_text_stripped :
  forall (config : option TemplateConfig) (s v : str) (b : bool) (n : Z)
         (r : process_result),
    strip_whitespace (config_or_default config) = true ->
    process_data (VStr s) config = Ok r ->
    fields r = OfStr v b n ->
    n = len v /\
    (exists pre post,
        s = (pre ++ v ++ post)%list /\
        forallb isspace pre = true /\ forallb isspace post = true) /\
    (forall c0 rest, v = c0 :: rest -> isspace c0 = false) /\
    (forall rest c0, v = (rest ++ [c0])%list -> isspace c0 = false).
Proof.
  intros config s v b n r Hstrip; rewrite process_data_default.
  unfold process_data, stripped; cbn [bind]; rewrite Hstrip.
  destruct (validate_input (VStr s) (Some (config_or_default config)))
    as [b'|e]; cbn [bind]; [|discriminate].
  intros Hr Hf; inversion Hr; subst r; cbn [fields] in Hf.
  inversion Hf; subst; split; [reflexivity|].
  split; [apply strip_split|]; split.
  - intros c0 rest E; eapply strip_first; exact E.
  - intros rest c0 E; eapply strip_last; exact E.
Qed.

Lemma process_data_text_stripped_witness :
  let r := header (VStr (lit " a b  ")) default_config
                  (OfStr (lit "a b") false 3) in
  strip_whitespace default_config = true /\
  process_data (VStr (lit " a b  ")) None = Ok r /\
  fields r = OfStr (lit "a b") false 3 /\
  3 = len (lit "a b") /\
  (exists pre post,
      lit " a b  " = (pre ++ lit "a b" ++ post)%list /\
      forallb isspace pre = true /\ forallb isspace post = true) /\
  (forall c0 rest, lit "a b" = c0 :: rest -> isspace c0 = false) /\
  (forall rest c0, lit "a b" = (rest ++ [c0])%list -> isspace c0 = false).
Proof.
  intros r; split; [reflexivity|]; split; [reflexivity|].
  split; [reflexivity|].
  exact (@process_data_text_stripped None (lit " a b  ") (lit "a b") false 3
           r eq_refl eq_refl eq_refl).
Defined.

(** ** Greeting, further *)

(** X13.  The greeting for a text is 29 characters longer than the text,
    and two texts with the same greeting are the same text. *)
Theorem hello_entirius_injective :
  forall n1 n2 : str,
    (exists g, hello_entirius (VStr n1) = Ok g /\ len g = len n1 + 29) /\
    (hello_entirius (VStr n1) = hello_entirius (VStr n2) -> n1 = n2).
Proof.
  intros n1 n2; split.
  - eexists; split; [reflexivity|].
    unfold len; rewrite !length_app; simpl; lia.
  - change (hello_entirius (VStr n1))
      with (Ok (lit "Hello, " ++ n1 ++ lit "! Welcome to Entirius.")%list).
    change (hello_entirius (VStr n2))
      with (Ok (lit "Hello, " ++ n2 ++ lit "! Welcome to Entirius.")%list).
    intros H; injection H as H.
    apply app_inv_tail in H; exact H.
Qed.

Lemma hello_entirius_injective_witness :
  hello_entirius (VStr (lit "Dev")) = hello_entirius (VStr (lit "Dev")) /\
  lit "Dev" = lit "Dev".
Proof.
  split; [reflexivity|].
  exact (proj2 (hello_entirius_injective (lit "Dev") (lit "Dev")) eq_refl).
Defined.
